(** * Gateway proxy of the AI microservices web application

    A shallow embedding of [web-service/src/server.ts]: the request
    validation, the forwarding and the error mapping of the routes
    [POST /api/analyze], [POST /api/batch-analyze], [GET /api/health],
    [GET /api/metrics] and [POST /api/chat], the properties the specification
    states about them, and further properties of the code. *)

From Stdlib Require Import ZArith NArith Lia Ascii String SpecFloat DecimalString.
From stdpp Require Import base tactics option list.

Open Scope Z_scope.

(** ** JavaScript strings

    A JavaScript string is a sequence of UTF-16 code units; [s.length]
    counts code units. *)

Abbreviation jsstring := (list N).

(** A literal of the source, which is ASCII throughout. *)
Definition lit (s : string) : jsstring :=
  N_of_ascii <$> list_ascii_of_string s.

(** [s.length], a JavaScript number. *)
Definition js_length {A} (s : list A) : Z := Z.of_nat (length s).

(** The code units [String.prototype.trim] strips: ECMAScript's WhiteSpace
    and LineTerminator. *)
Definition is_white_space (c : N) : bool :=
  match c with
  | 9 | 10 | 11 | 12 | 13 | 32 | 160 | 5760
  | 8232 | 8233 | 8239 | 8287 | 12288 | 65279 => true
  | _ => (8192 <=? c) && (c <=? 8202)
  end%N.

Fixpoint trimStart (s : jsstring) : jsstring :=
  match s with
  | c :: r => if is_white_space c then trimStart r else s
  | [] => []
  end.

Definition trimEnd (s : jsstring) : jsstring :=
  reverse (trimStart (reverse s)).

Definition trim (s : jsstring) : jsstring := trimEnd (trimStart s).

(** [`${n}`] for a non-negative integer. *)
Definition decimal (n : Z) : jsstring :=
  lit (NilEmpty.string_of_uint (N.to_uint (Z.to_N n))).

(** ** JavaScript values, as [JSON.parse] and the handlers see them *)

#[warnings="-register-all"] Inductive JsValue : Type :=
| JUndefined
| JNull
| JBool (b : bool)
| JNum (x : spec_float)
| JStr (s : jsstring)
| JArr (elems : list JsValue)
| JObj (props : list (jsstring * JsValue)).

(** ToBoolean, the test behind [!v]. *)
Definition truthy (v : JsValue) : bool :=
  match v with
  | JUndefined | JNull => false
  | JBool b => b
  | JNum (S754_zero _) | JNum S754_nan => false
  | JNum _ => true
  | JStr s => negb (bool_decide (s = []))
  | JArr _ | JObj _ => true
  end.

Definition isArray (v : JsValue) : bool :=
  match v with JArr _ => true | _ => false end.

(** [v.length] where the source reads it: of a string or of an array. Both
    reads sit behind a test that has already established the type. *)
Definition length_of (v : JsValue) : Z :=
  match v with
  | JStr s => js_length s
  | JArr l => js_length l
  | _ => 0
  end.

(** The own property [k] of a parsed object, [undefined] when it has none. *)
Fixpoint own_property (props : list (jsstring * JsValue)) (k : jsstring)
  : JsValue :=
  match props with
  | [] => JUndefined
  | (k', v) :: rest => if bool_decide (k' = k) then v else own_property rest k
  end.

(** ** Responses sent to the client *)

(** [interface ErrorResponse], with the two fields the proxy routes set. *)
Record ErrorResponse := {
  error : jsstring;
  details : option JsValue
}.

(** [interface CombinedHealthResponse]; [health_error] is its [error]
    field. *)
Record CombinedHealthResponse := {
  web_service : jsstring;
  ai_service : JsValue;
  health_error : option jsstring
}.

Inductive Body :=
| ErrorBody (e : ErrorResponse)
| HealthBody (h : CombinedHealthResponse)
| DataBody (d : JsValue).

(** What [res.status(c).json(b)] sends; [res.json(b)] sends status 200. *)
Record Response := {
  status : Z;
  body : Body
}.

(** ** The outside world: outbound HTTP calls and what axios makes of them *)

Inductive HttpMethod := GET | POST.

Record OutboundCall := {
  method : HttpMethod;
  url : jsstring;
  payload : option JsValue;
  timeout : Z;
  content_type_json : bool
}.

(** What happens to one outbound call: the upstream answers with a status
    and a body, or no answer arrives and the transport reports an error
    code (ECONNREFUSED, ENOTFOUND, ECONNABORTED on timeout, ...). *)
Inductive UpstreamOutcome :=
| Responded (st : Z) (data : JsValue)
| NoResponse (code : jsstring) (message : jsstring).

Record AxiosResponse := {
  resp_status : Z;
  resp_data : JsValue
}.

(** The fields of [AxiosError] the handlers read. *)
Record AxiosError := {
  ax_message : jsstring;
  ax_code : option jsstring;
  ax_response : option AxiosResponse
}.

(** What a [catch (error)] can receive in these handlers. *)
Inductive Thrown :=
| TypeError (message : jsstring)
| ThrownAxios (e : AxiosError).

(** [(error as AxiosError).message], [.code] and [.response]: the cast is
    erased at run time, a [TypeError] has neither code nor response. *)
Definition err_message (e : Thrown) : jsstring :=
  match e with TypeError m => m | ThrownAxios a => ax_message a end.

Definition err_code (e : Thrown) : option jsstring :=
  match e with TypeError _ => None | ThrownAxios a => ax_code a end.

Definition err_response (e : Thrown) : option AxiosResponse :=
  match e with TypeError _ => None | ThrownAxios a => ax_response a end.

(** The process environment and the upstream services. *)
Record Env := {
  AI_SERVICE_URL : option jsstring;
  FASTAPI_URL : option jsstring;
  upstream : OutboundCall -> UpstreamOutcome
}.

Inductive ConsoleLine :=
| LogAnalyzed (echo : jsstring) (sentiment : JsValue) (confidence : spec_float)
| LogBatch (count : Z)
| ErrorAnalyze (message : jsstring)
| ErrorBatch (message : jsstring).

(** The effects of one request, in the order they happen. *)
Record Effects := {
  calls : list OutboundCall;
  console : list ConsoleLine
}.

Definition no_effects : Effects := {| calls := []; console := [] |}.

(** ** The handler monad: environment, effects and exceptions *)

Inductive Outcome (A : Type) :=
| Returned (a : A)
| Threw (e : Thrown).
Arguments Returned {A} a.
Arguments Threw {A} e.

Definition Handler (A : Type) : Type := Env -> Effects -> Outcome A * Effects.

#[global] Instance handler_ret : MRet Handler :=
  fun A a _ fx => (Returned a, fx).

#[global] Instance handler_bind : MBind Handler :=
  fun A B k m env fx =>
    match m env fx with
    | (Returned a, fx') => k a env fx'
    | (Threw e, fx') => (Threw e, fx')
    end.

Definition throw {A} (e : Thrown) : Handler A := fun _ fx => (Threw e, fx).

(** [try { m } catch (error) { h error }]. *)
Definition try_catch {A} (m : Handler A) (h : Thrown -> Handler A) : Handler A :=
  fun env fx =>
    match m env fx with
    | (Returned a, fx') => (Returned a, fx')
    | (Threw e, fx') => h e env fx'
    end.

Definition ask : Handler Env := fun env fx => (Returned env, fx).

Definition console_write (l : ConsoleLine) : Handler unit :=
  fun _ fx => (Returned tt, {| calls := calls fx; console := console fx ++ [l] |}).

Definition send (c : Z) (b : Body) : Handler Response :=
  mret {| status := c; body := b |}.

(** ** axios, as the handlers use it

    One request is one outbound call. With the default [validateStatus] the
    promise resolves for a status in [200, 300) and rejects with an
    [AxiosError] carrying the response otherwise; a transport failure
    rejects with the transport's code and no response. *)

Definition settle_code (st : Z) : option jsstring :=
  match st / 100 - 4 with
  | 0 => Some (lit "ERR_BAD_REQUEST")
  | 1 => Some (lit "ERR_BAD_RESPONSE")
  | _ => None
  end.

Definition settle (o : UpstreamOutcome) : Outcome AxiosResponse :=
  match o with
  | Responded st data =>
      let r := {| resp_status := st; resp_data := data |} in
      if bool_decide (200 <= st < 300) then Returned r
      else Threw (ThrownAxios
             {| ax_message := lit "Request failed with status code " ++ decimal st;
                ax_code := settle_code st;
                ax_response := Some r |})
  | NoResponse code message =>
      Threw (ThrownAxios
        {| ax_message := message; ax_code := Some code; ax_response := None |})
  end.

Definition axios_request (c : OutboundCall) : Handler AxiosResponse :=
  fun env fx =>
    (settle (upstream env c),
     {| calls := calls fx ++ [c]; console := console fx |}).

(** [axios.get(url, { timeout })]. *)
Definition axios_get (u : jsstring) (t : Z) : Handler AxiosResponse :=
  axios_request {| method := GET; url := u; payload := None; timeout := t;
                   content_type_json := false |}.

(** [axios.post(url, data, { timeout, headers: { 'Content-Type':
    'application/json' } })]. *)
Definition axios_post (u : jsstring) (data : JsValue) (t : Z)
  : Handler AxiosResponse :=
  axios_request {| method := POST; url := u; payload := Some data; timeout := t;
                   content_type_json := true |}.

(** ** Configuration *)

(** [a || b] on environment variables: unset and the empty string are falsy. *)
Definition or_else (a : option jsstring) (b : jsstring) : jsstring :=
  match a with
  | Some (c :: s) => c :: s
  | _ => b
  end.

(** [process.env.AI_SERVICE_URL || process.env.FASTAPI_URL ||
    'http://localhost:8000']. *)
Definition SENTIMENT_ANALYSIS_URL (env : Env) : jsstring :=
  or_else (AI_SERVICE_URL env)
    (or_else (FASTAPI_URL env) (lit "http://localhost:8000")).

(** ** JavaScript operations that can throw *)

(** [v.k] for the keys the handlers read ([text], [texts], [sentiment],
    [confidence]; no prototype defines them): reading a property of
    [undefined] or [null] throws, an object yields its own property, any other
    value yields [undefined]. *)
Definition get_member (v : JsValue) (k : jsstring) : Handler JsValue :=
  match v with
  | JUndefined | JNull => throw (TypeError (lit "Cannot read properties of undefined"))
  | JObj props => mret (own_property props k)
  | _ => mret JUndefined
  end.

(** [v.trim()]: only strings have the method. *)
Definition call_trim (v : JsValue) : Handler jsstring :=
  match v with
  | JStr s => mret (trim s)
  | _ => throw (TypeError (lit "trim is not a function"))
  end.

(** [v.toFixed(4)]: only numbers have the method; the digits are left to
    the log line. *)
Definition call_toFixed (v : JsValue) : Handler spec_float :=
  match v with
  | JNum x => mret x
  | _ => throw (TypeError (lit "toFixed is not a function"))
  end.

(** [v.substring(0, n)]: only strings have the method. *)
Definition call_substring (v : JsValue) (n : nat) : Handler jsstring :=
  match v with
  | JStr s => mret (take n s)
  | _ => throw (TypeError (lit "substring is not a function"))
  end.

(** [l.map(f)] for an [f] that may throw. *)
Fixpoint array_map {A B} (f : A -> Handler B) (l : list A) : Handler (list B) :=
  match l with
  | [] => mret []
  | x :: r => y ← f x; ys ← array_map f r; mret (y :: ys)
  end.

(** ** GET /api/health *)

Definition api_health : Handler Response :=
  try_catch
    (env ← ask;
     response ← axios_get (SENTIMENT_ANALYSIS_URL env ++ lit "/health") 5000;
     send 200 (HealthBody {| web_service := lit "healthy";
                             ai_service := resp_data response;
                             health_error := None |}))
    (fun error =>
     send 503 (HealthBody {| web_service := lit "healthy";
                             ai_service := JStr (lit "unavailable");
                             health_error := Some (err_message error) |})).

(** ** POST /api/analyze *)

(** The block after validation: forward to the sentiment service, log the
    analysis, relay the answer. *)
Definition analyze_forward (text : JsValue) : Handler Response :=
  env ← ask;
  t ← call_trim text;
  response ← axios_post (SENTIMENT_ANALYSIS_URL env ++ lit "/analyze")
               (JObj [(lit "text", JStr t)]) 30000;
  echo ← call_substring text 50;
  sentiment ← get_member (resp_data response) (lit "sentiment");
  confidence ← get_member (resp_data response) (lit "confidence");
  fixed ← call_toFixed confidence;
  console_write (LogAnalyzed echo sentiment fixed);;
  send 200 (DataBody (resp_data response)).

(** [!text || text.trim().length === 0]. *)
Definition text_missing_or_blank (text : JsValue) : Handler bool :=
  if negb (truthy text) then mret true
  else t ← call_trim text; mret (bool_decide (js_length t = 0)).

Definition analyze_try (req_body : JsValue) : Handler Response :=
  text ← get_member req_body (lit "text");
  empty ← text_missing_or_blank text;
  if (empty : bool) then
    send 400 (ErrorBody {| error := lit "Text is required and cannot be empty";
                           details := None |})
  else if bool_decide (length_of text > 5000) then
    send 400 (ErrorBody {| error := lit "Text too long. Maximum 5000 characters allowed.";
                           details := None |})
  else
    analyze_forward text.

Definition analyze_catch (error : Thrown) : Handler Response :=
  console_write (ErrorAnalyze (err_message error));;
  if bool_decide (err_code error = Some (lit "ECONNREFUSED")) then
    send 503 (ErrorBody
      {| error := lit "AI service is currently unavailable. Please try again later.";
         details := Some (JStr (lit "Unable to connect to sentiment analysis service")) |})
  else
    match err_response error with
    | Some response =>
        send (resp_status response) (ErrorBody
          {| error := lit "AI service error";
             details := Some (resp_data response) |})
    | None =>
        if bool_decide (err_code error = Some (lit "ENOTFOUND")) then
          send 503 (ErrorBody
            {| error := lit "AI service configuration error";
               details := Some (JStr (lit "Cannot resolve AI service hostname")) |})
        else
          send 500 (ErrorBody
            {| error := lit "Internal server error";
               details := Some (JStr (lit
                 "An unexpected error occurred while processing your request")) |})
    end.

Definition api_analyze (req_body : JsValue) : Handler Response :=
  try_catch (analyze_try req_body) analyze_catch.

(** ** POST /api/batch-analyze *)

(** The test of the validation loop,
    [typeof texts[i] !== 'string' || texts[i].trim().length === 0]: [trim] is
    only reached, and only defined, on a string. *)
Definition invalid_text (v : JsValue) : bool :=
  match v with
  | JStr s => bool_decide (js_length (trim s) = 0)
  | _ => true
  end.

(** The validation loop, from index [i] over the elements from there on:
    the index at which it returns, if it does. *)
Fixpoint validate_each (i : Z) (rest : list JsValue) : option Z :=
  match rest with
  | [] => None
  | v :: rest' => if invalid_text v then Some i else validate_each (i + 1) rest'
  end.

(** The block after validation: forward the trimmed texts, log the batch,
    relay the answer. *)
Definition batch_forward (texts : list JsValue) : Handler Response :=
  env ← ask;
  trimmed ← array_map (fun text => t ← call_trim text; mret (JStr t)) texts;
  response ← axios_post (SENTIMENT_ANALYSIS_URL env ++ lit "/batch-analyze")
               (JObj [(lit "texts", JArr trimmed)]) 60000;
  console_write (LogBatch (js_length texts));;
  send 200 (DataBody (resp_data response)).

Definition batch_try (req_body : JsValue) : Handler Response :=
  texts ← get_member req_body (lit "texts");
  if negb (isArray texts) || bool_decide (length_of texts = 0) then
    send 400 (ErrorBody {| error := lit "Texts array is required and cannot be empty";
                           details := None |})
  else if bool_decide (length_of texts > 100) then
    send 400 (ErrorBody {| error := lit "Too many texts. Maximum 100 texts allowed per batch.";
                           details := None |})
  else
    let elems := match texts with JArr l => l | _ => [] end in
    match validate_each 0 elems with
    | Some i =>
        send 400 (ErrorBody
          {| error := lit "Text at index " ++ decimal i ++ lit " is invalid or empty";
             details := None |})
    | None => batch_forward elems
    end.

Definition batch_catch (error : Thrown) : Handler Response :=
  console_write (ErrorBatch (err_message error));;
  if bool_decide (err_code error = Some (lit "ECONNREFUSED")) then
    send 503 (ErrorBody
      {| error := lit "AI service is currently unavailable. Please try again later.";
         details := Some (JStr (lit "Unable to connect to sentiment analysis service")) |})
  else
    match err_response error with
    | Some response =>
        send (resp_status response) (ErrorBody
          {| error := lit "AI service error";
             details := Some (resp_data response) |})
    | None =>
        send 500 (ErrorBody
          {| error := lit "Internal server error";
             details := Some (JStr (lit
               "An unexpected error occurred while processing batch request")) |})
    end.

Definition api_batch_analyze (req_body : JsValue) : Handler Response :=
  try_catch (batch_try req_body) batch_catch.

(** A request runs its handler from a state with no effects yet. *)
Definition serve (h : Handler Response) (env : Env) : Outcome Response * Effects :=
  h env no_effects.

(** ** Vocabulary of the statements *)

Arguments lit : simpl never.
Arguments decimal : simpl never.

(** The response [res.status(c).json({ error, details })]. *)
Definition error_reply (c : Z) (e : jsstring) (d : option JsValue) : Response :=
  {| status := c; body := ErrorBody {| error := e; details := d |} |}.

(** The one call [POST /api/analyze] forwards, for the trimmed text [t]. *)
Definition analyze_call (env : Env) (t : jsstring) : OutboundCall :=
  {| method := POST;
     url := SENTIMENT_ANALYSIS_URL env ++ lit "/analyze";
     payload := Some (JObj [(lit "text", JStr t)]);
     timeout := 30000;
     content_type_json := true |}.

(** The one call [POST /api/batch-analyze] forwards, for the texts [ts]. *)
Definition batch_call (env : Env) (ts : list jsstring) : OutboundCall :=
  {| method := POST;
     url := SENTIMENT_ANALYSIS_URL env ++ lit "/batch-analyze";
     payload := Some (JObj [(lit "texts", JArr (JStr <$> ts))]);
     timeout := 60000;
     content_type_json := true |}.

(** The call of [GET /api/health]. *)
Definition health_call (env : Env) : OutboundCall :=
  {| method := GET;
     url := SENTIMENT_ANALYSIS_URL env ++ lit "/health";
     payload := None;
     timeout := 5000;
     content_type_json := false |}.

(** An element of a batch that "is not a string or is empty after
    trimming". *)
Definition not_string_or_blank (v : JsValue) : Prop :=
  match v with
  | JStr s => js_length (trim s) = 0
  | _ => True
  end.

(** An upstream that answers every call with [o]. *)
Definition constant_upstream (o : UpstreamOutcome) : Env :=
  {| AI_SERVICE_URL := None; FASTAPI_URL := None; upstream := fun _ => o |}.

(** The body [{ "text": v }] and the body [{ "texts": v }]. *)
Definition text_body (v : JsValue) : JsValue := JObj [(lit "text", v)].
Definition texts_body (v : JsValue) : JsValue := JObj [(lit "texts", v)].

(** A string that [trim] empties: nothing in it but white space. *)
Definition all_white_space (s : jsstring) : bool := forallb is_white_space s.

(** [quiet m]: [m] issues no outbound call. [single m]: [m] issues at most
    one. *)
Definition quiet {A} (m : Handler A) : Prop :=
  forall env fx, calls (m env fx).2 = calls fx.

Definition single {A} (m : Handler A) : Prop :=
  forall env fx,
    calls (m env fx).2 = calls fx \/ exists c, calls (m env fx).2 = calls fx ++ [c].

(** Example inputs: an upstream that answers every call with an empty 200;
    5001 spaces; a letter followed by 5000 spaces. *)
Definition idle_env : Env := constant_upstream (Responded 200 JNull).
Definition spaces_5001 : jsstring := replicate (Z.to_nat 5001) 32%N.
Definition letter_then_spaces : jsstring := 65%N :: replicate (Z.to_nat 5000) 32%N.

(** ** The routes beside the sentiment proxy

    [new Date().toISOString()] is read from the clock when a response is
    built: the handlers take the reading as [now]. The module constant
    [CONVERSATIONAL_AI_URL] is a parameter of the chat route. *)

(** [process.env.CONVERSATIONAL_AI_URL || 'http://localhost:8001']. *)
Definition CONVERSATIONAL_AI_URL (configured : option jsstring) : jsstring :=
  or_else configured (lit "http://localhost:8001").

(** [GET /api/metrics]. *)
Definition api_metrics (now : jsstring) : Handler Response :=
  try_catch
    (env ← ask;
     response ← axios_get (SENTIMENT_ANALYSIS_URL env ++ lit "/metrics") 5000;
     send 200 (DataBody (resp_data response)))
    (fun error =>
     send 503 (DataBody (JObj
       [(lit "error", JStr (lit "Failed to fetch metrics from AI service"));
        (lit "details", JStr (err_message error));
        (lit "timestamp", JStr now)]))).

(** [POST /api/chat]: [req.body] goes to the conversational service as it
    is. *)
Definition api_chat (chat_url now : jsstring) (req_body : JsValue)
  : Handler Response :=
  try_catch
    (response ← axios_post (chat_url ++ lit "/chat") req_body 30000;
     send 200 (DataBody (resp_data response)))
    (fun error =>
     send 503 (DataBody (JObj
       [(lit "error", JStr (lit "Failed to communicate with conversational AI service"));
        (lit "details", JStr (err_message error));
        (lit "timestamp", JStr now)]))).

(** The calls of [GET /api/metrics] and of [POST /api/chat]. *)
Definition metrics_call (env : Env) : OutboundCall :=
  {| method := GET;
     url := SENTIMENT_ANALYSIS_URL env ++ lit "/metrics";
     payload := None;
     timeout := 5000;
     content_type_json := false |}.

Definition chat_call (chat_url : jsstring) (req_body : JsValue) : OutboundCall :=
  {| method := POST;
     url := chat_url ++ lit "/chat";
     payload := Some req_body;
     timeout := 30000;
     content_type_json := true |}.

(** The 503 body of the metrics and chat routes. *)
Definition unavailable_reply (e details now : jsstring) : Response :=
  {| status := 503;
     body := DataBody (JObj [(lit "error", JStr e);
                             (lit "details", JStr details);
                             (lit "timestamp", JStr now)]) |}.

(** The answers of the catch blocks of the sentiment proxy. *)
Definition service_unavailable : Response :=
  error_reply 503 (lit "AI service is currently unavailable. Please try again later.")
    (Some (JStr (lit "Unable to connect to sentiment analysis service"))).

Definition configuration_error : Response :=
  error_reply 503 (lit "AI service configuration error")
    (Some (JStr (lit "Cannot resolve AI service hostname"))).

Definition internal_error (what : string) : Response :=
  error_reply 500 (lit "Internal server error") (Some (JStr (lit what))).

(** A string with no white space at either end. *)
Definition clean_start (s : jsstring) : Prop :=
  match s with
  | [] => True
  | c :: _ => is_white_space c = false
  end.

(** A text the analyze route forwards: trimmed, not empty, at most 5000
    code units. *)
Definition forwardable_text (t : jsstring) : Prop :=
  t <> [] /\ trim t = t /\ js_length t <= 5000.

(** [i] is the first index of [elems] whose element is not a string or is
    empty after trimming. *)
Definition first_invalid (elems : list JsValue) (i : nat) : Prop :=
  (exists v, elems !! i = Some v /\ not_string_or_blank v)
  /\ forall j w, (j < i)%nat -> elems !! j = Some w -> ~ not_string_or_blank w.

Create HintDb calls.

(** Unfold the monad so that a handler runs by computation. *)
Ltac run_handler :=
  unfold serve, try_catch, mbind, handler_bind, mret, handler_ret, send, throw,
    ask, console_write, axios_post, axios_get, axios_request; simpl.

(** A closed disequality, by evaluation. *)
Ltac closed_neq := let H := fresh in intros H; vm_compute in H; discriminate H.

(** * Lemmas *)

(** ** Strings and trimming *)

Lemma js_length_zero {A} (l : list A) : js_length l = 0 <-> l = [].
Proof.
  unfold js_length. destruct l; simpl; split; intros H; try done; lia.
Qed.

Lemma js_length_nonneg {A} (l : list A) : 0 <= js_length l.
Proof. unfold js_length. lia. Qed.

Lemma trimStart_length s : (length (trimStart s) <= length s)%nat.
Proof.
  induction s as [|c r IH]; simpl; [lia|].
  destruct (is_white_space c); simpl; lia.
Qed.

Lemma trim_length s : js_length (trim s) <= js_length s.
Proof.
  unfold js_length, trim, trimEnd. rewrite length_reverse.
  pose proof (trimStart_length (reverse (trimStart s))) as H1.
  rewrite length_reverse in H1.
  pose proof (trimStart_length s). lia.
Qed.

Lemma trim_nil : trim [] = [].
Proof. reflexivity. Qed.

Lemma trimStart_nil_iff s : trimStart s = [] <-> all_white_space s = true.
Proof.
  induction s as [|c r IH]; simpl; [done|].
  destruct (is_white_space c); simpl; [done|]. split; intros H; discriminate H.
Qed.

Lemma trimStart_fixed s :
  trimStart s <> [] -> all_white_space (trimStart s) = false.
Proof.
  induction s as [|c r IH]; simpl; [done|].
  destruct (is_white_space c) eqn:Hc; [done|]. intros _. simpl. by rewrite Hc.
Qed.

Lemma all_white_space_reverse s : all_white_space (reverse s) = all_white_space s.
Proof.
  unfold all_white_space. induction s as [|c r IH]; [done|].
  rewrite reverse_cons, forallb_app, IH. simpl. by rewrite andb_true_r, andb_comm.
Qed.

(** "Empty after trimming" is "nothing but white space". *)
Lemma trim_blank_iff s : js_length (trim s) = 0 <-> all_white_space s = true.
Proof.
  rewrite js_length_zero. unfold trim, trimEnd. split.
  - intros Hnil. apply (f_equal reverse) in Hnil.
    rewrite reverse_involutive, reverse_nil in Hnil.
    apply trimStart_nil_iff in Hnil. rewrite all_white_space_reverse in Hnil.
    apply trimStart_nil_iff.
    destruct (decide (trimStart s = [])) as [|Hne]; [done|].
    apply trimStart_fixed in Hne. congruence.
  - intros Hws. apply trimStart_nil_iff in Hws. by rewrite Hws.
Qed.

Lemma nonblank_nonempty s : js_length (trim s) <> 0 -> s <> [].
Proof. intros H ->. by apply H. Qed.

Lemma invalid_text_spec v : invalid_text v = true <-> not_string_or_blank v.
Proof.
  destruct v; simpl; try done.
  by rewrite bool_decide_eq_true.
Qed.

(** ** What axios makes of an upstream answer *)

Lemma settle_code_not_refused st :
  settle_code st <> Some (lit "ECONNREFUSED").
Proof.
  unfold settle_code. destruct (st / 100 - 4) as [|[| |]|]; closed_neq.
Qed.

Lemma settle_http_error st data :
  ~ (200 <= st < 300) ->
  exists e, settle (Responded st data) = Threw e
    /\ err_code e <> Some (lit "ECONNREFUSED")
    /\ err_response e = Some {| resp_status := st; resp_data := data |}.
Proof.
  intros Hst. simpl. rewrite bool_decide_eq_false_2 by done.
  eexists; split; [reflexivity|]. simpl. split; [apply settle_code_not_refused|done].
Qed.

Lemma settle_success st data :
  200 <= st < 300 ->
  settle (Responded st data) = Returned {| resp_status := st; resp_data := data |}.
Proof. intros Hst. simpl. by rewrite bool_decide_eq_true_2. Qed.

(** ** POST /api/analyze on a string *)

Section AnalyzeOnStrings.
Variables (env : Env) (props : list (jsstring * JsValue)) (s : jsstring).
Hypothesis text_is_s : own_property props (lit "text") = JStr s.

Lemma analyze_try_blank fx :
  js_length (trim s) = 0 ->
  analyze_try (JObj props) env fx =
    (Returned (error_reply 400 (lit "Text is required and cannot be empty") None), fx).
Proof using text_is_s.
  intros Hblank. unfold analyze_try, text_missing_or_blank. run_handler.
  rewrite text_is_s. simpl.
  destruct (bool_decide (s = [])); simpl; [done|].
  by rewrite bool_decide_eq_true_2.
Qed.

Lemma analyze_try_too_long fx :
  js_length (trim s) <> 0 -> js_length s > 5000 ->
  analyze_try (JObj props) env fx =
    (Returned (error_reply 400 (lit "Text too long. Maximum 5000 characters allowed.") None),
     fx).
Proof using text_is_s.
  intros Hnonblank Hlong. unfold analyze_try, text_missing_or_blank. run_handler.
  rewrite text_is_s. simpl.
  rewrite (bool_decide_eq_false_2 (s = [])) by by apply nonblank_nonempty.
  simpl. rewrite bool_decide_eq_false_2 by done.
  by rewrite bool_decide_eq_true_2.
Qed.

Lemma analyze_try_valid fx :
  js_length (trim s) <> 0 -> js_length s <= 5000 ->
  analyze_try (JObj props) env fx = analyze_forward (JStr s) env fx.
Proof using text_is_s.
  intros Hnonblank Hshort. unfold analyze_try, text_missing_or_blank. run_handler.
  rewrite text_is_s. simpl.
  rewrite (bool_decide_eq_false_2 (s = [])) by by apply nonblank_nonempty.
  simpl. rewrite bool_decide_eq_false_2 by done.
  by rewrite bool_decide_eq_false_2 by lia.
Qed.
End AnalyzeOnStrings.

Lemma analyze_forward_calls s env fx :
  calls (analyze_forward (JStr s) env fx).2 = calls fx ++ [analyze_call env (trim s)].
Proof.
  unfold analyze_forward. run_handler. fold (analyze_call env (trim s)).
  destruct (settle _) as [response|e]; [|done].
  unfold get_member.
  destruct (resp_data response) as [| | | | | |fields]; try done; run_handler.
  all: try (destruct (own_property fields (lit "confidence")); done).
Qed.

Lemma analyze_forward_rejected s env fx e :
  settle (upstream env (analyze_call env (trim s))) = Threw e ->
  analyze_forward (JStr s) env fx =
    (Threw e, {| calls := calls fx ++ [analyze_call env (trim s)];
                 console := console fx |}).
Proof.
  intros Hrej. unfold analyze_forward. run_handler.
  fold (analyze_call env (trim s)). by rewrite Hrej.
Qed.

(** ** The catch blocks *)

Lemma analyze_catch_effects e env fx :
  (analyze_catch e env fx).2 =
    {| calls := calls fx; console := console fx ++ [ErrorAnalyze (err_message e)] |}.
Proof.
  unfold analyze_catch. run_handler.
  destruct (bool_decide (err_code e = _)); [done|].
  destruct (err_response e); [done|].
  by destruct (bool_decide (err_code e = _)).
Qed.

Lemma batch_catch_effects e env fx :
  (batch_catch e env fx).2 =
    {| calls := calls fx; console := console fx ++ [ErrorBatch (err_message e)] |}.
Proof.
  unfold batch_catch. run_handler.
  destruct (bool_decide (err_code e = _)); [done|].
  by destruct (err_response e).
Qed.

(** The mapping is total: a catch block always sends a response. *)
Lemma analyze_catch_total e env fx :
  exists r, (analyze_catch e env fx).1 = Returned r.
Proof.
  unfold analyze_catch. run_handler.
  destruct (bool_decide (err_code e = _)); [by eexists|].
  destruct (err_response e); [by eexists|].
  destruct (bool_decide (err_code e = _)); by eexists.
Qed.

Lemma batch_catch_total e env fx :
  exists r, (batch_catch e env fx).1 = Returned r.
Proof.
  unfold batch_catch. run_handler.
  destruct (bool_decide (err_code e = _)); [by eexists|].
  destruct (err_response e); by eexists.
Qed.

Section UpstreamAnswered.
Variables (e : Thrown) (response : AxiosResponse).
Hypothesis not_refused : err_code e <> Some (lit "ECONNREFUSED").
Hypothesis answered : err_response e = Some response.

Lemma analyze_catch_passthrough env fx :
  (analyze_catch e env fx).1 =
    Returned (error_reply (resp_status response) (lit "AI service error")
                (Some (resp_data response))).
Proof using not_refused answered.
  unfold analyze_catch. run_handler.
  rewrite bool_decide_eq_false_2 by done. by rewrite answered.
Qed.

Lemma batch_catch_passthrough env fx :
  (batch_catch e env fx).1 =
    Returned (error_reply (resp_status response) (lit "AI service error")
                (Some (resp_data response))).
Proof using not_refused answered.
  unfold batch_catch. run_handler.
  rewrite bool_decide_eq_false_2 by done. by rewrite answered.
Qed.
End UpstreamAnswered.

Lemma analyze_catch_type_error m env fx :
  (analyze_catch (TypeError m) env fx).1 =
    Returned (error_reply 500 (lit "Internal server error")
      (Some (JStr (lit "An unexpected error occurred while processing your request")))).
Proof. reflexivity. Qed.

Lemma analyze_catch_not_found m env fx :
  (analyze_catch
     (ThrownAxios {| ax_message := m; ax_code := Some (lit "ENOTFOUND");
                     ax_response := None |}) env fx).1 =
    Returned (error_reply 503 (lit "AI service configuration error")
      (Some (JStr (lit "Cannot resolve AI service hostname")))).
Proof. reflexivity. Qed.

Lemma batch_catch_not_found m env fx :
  (batch_catch
     (ThrownAxios {| ax_message := m; ax_code := Some (lit "ENOTFOUND");
                     ax_response := None |}) env fx).1 =
    Returned (error_reply 500 (lit "Internal server error")
      (Some (JStr (lit "An unexpected error occurred while processing batch request")))).
Proof. reflexivity. Qed.

(** ** The validation loop of the batch route *)

Lemma validate_each_first (l : list JsValue) : forall (i : Z) (n : nat) (v : JsValue),
  l !! n = Some v ->
  invalid_text v = true ->
  (forall j w, (j < n)%nat -> l !! j = Some w -> invalid_text w = false) ->
  validate_each i l = Some (i + Z.of_nat n).
Proof.
  induction l as [|x l IH]; intros i n v Hn Hv Hbefore; [done|].
  destruct n as [|n]; simpl in *.
  - injection Hn as ->. rewrite Hv. f_equal. lia.
  - rewrite (Hbefore 0%nat x) by (done || lia).
    rewrite (IH (i + 1) n v); [f_equal; lia|done..|].
    intros j w Hj Hw. apply (Hbefore (S j)); [lia|done].
Qed.

Lemma validate_each_none (l : list JsValue) (i : Z) :
  validate_each i l = None <-> Forall (fun v => invalid_text v = false) l.
Proof.
  revert i. induction l as [|x l IH]; intros i; simpl.
  - split; [constructor|done].
  - destruct (invalid_text x) eqn:Hx.
    + split; [done|]. intros H. inversion H; congruence.
    + rewrite IH. split; [by constructor|]. intros H. by inversion H.
Qed.

Lemma validate_each_strings (ss : list jsstring) (i : Z) :
  Forall (fun s => js_length (trim s) <> 0) ss ->
  validate_each i (JStr <$> ss) = None.
Proof.
  intros Hss. apply validate_each_none, Forall_fmap.
  eapply Forall_impl; [exact Hss|]. intros s Hs. simpl.
  by apply bool_decide_eq_false_2.
Qed.

Lemma array_map_trim (ss : list jsstring) env fx :
  array_map (fun text => t ← call_trim text; mret (JStr t)) (JStr <$> ss) env fx =
    (Returned (JStr <$> (trim <$> ss)), fx).
Proof.
  induction ss as [|s ss IH]; [done|].
  simpl. run_handler.
  match goal with
  | |- context [array_map ?f ?l env fx] =>
      replace (array_map f l env fx) with (Returned (JStr <$> (trim <$> ss)), fx)
        by (symmetry; exact IH)
  end.
  done.
Qed.

(** ** POST /api/batch-analyze on an array *)

Lemma batch_try_not_array props env fx :
  isArray (own_property props (lit "texts")) = false ->
  batch_try (JObj props) env fx =
    (Returned (error_reply 400 (lit "Texts array is required and cannot be empty") None),
     fx).
Proof.
  intros Hno. unfold batch_try. run_handler. by rewrite Hno.
Qed.

Section BatchOnArrays.
Variables (env : Env) (props : list (jsstring * JsValue)) (elems : list JsValue).
Hypothesis texts_is_elems : own_property props (lit "texts") = JArr elems.

Lemma batch_try_empty fx :
  js_length elems = 0 ->
  batch_try (JObj props) env fx =
    (Returned (error_reply 400 (lit "Texts array is required and cannot be empty") None),
     fx).
Proof using texts_is_elems.
  intros Hlen. unfold batch_try. run_handler. rewrite texts_is_elems. simpl.
  by rewrite bool_decide_eq_true_2.
Qed.

Lemma batch_try_too_many fx :
  js_length elems > 100 ->
  batch_try (JObj props) env fx =
    (Returned
       (error_reply 400 (lit "Too many texts. Maximum 100 texts allowed per batch.") None),
     fx).
Proof using texts_is_elems.
  intros Hlen. unfold batch_try. run_handler. rewrite texts_is_elems. simpl.
  rewrite bool_decide_eq_false_2 by lia. by rewrite bool_decide_eq_true_2.
Qed.

Lemma batch_try_sized fx :
  1 <= js_length elems <= 100 ->
  batch_try (JObj props) env fx =
    match validate_each 0 elems with
    | Some i =>
        (Returned (error_reply 400
           (lit "Text at index " ++ decimal i ++ lit " is invalid or empty") None), fx)
    | None => batch_forward elems env fx
    end.
Proof using texts_is_elems.
  intros Hlen. unfold batch_try. run_handler. rewrite texts_is_elems. simpl.
  rewrite bool_decide_eq_false_2 by lia. rewrite bool_decide_eq_false_2 by lia.
  by destruct (validate_each 0 elems).
Qed.
End BatchOnArrays.

Lemma batch_forward_calls ss env fx :
  calls (batch_forward (JStr <$> ss) env fx).2 = calls fx ++ [batch_call env (trim <$> ss)].
Proof.
  unfold batch_forward. run_handler.
  match goal with
  | |- context [array_map ?f ?l env fx] =>
      replace (array_map f l env fx) with (Returned (JStr <$> (trim <$> ss)), fx)
        by (symmetry; apply array_map_trim)
  end.
  fold (batch_call env (trim <$> ss)). by destruct (settle _).
Qed.

Lemma batch_forward_rejected ss env fx e :
  settle (upstream env (batch_call env (trim <$> ss))) = Threw e ->
  batch_forward (JStr <$> ss) env fx =
    (Threw e, {| calls := calls fx ++ [batch_call env (trim <$> ss)];
                 console := console fx |}).
Proof.
  intros Hrej. unfold batch_forward. run_handler.
  match goal with
  | |- context [array_map ?f ?l env fx] =>
      replace (array_map f l env fx) with (Returned (JStr <$> (trim <$> ss)), fx)
        by (symmetry; apply array_map_trim)
  end.
  fold (batch_call env (trim <$> ss)). by rewrite Hrej.
Qed.

(** ** Counting outbound calls: [quiet] and [single] compose along the
    structure of a handler *)

Lemma quiet_ret {A} (a : A) : quiet (mret a).
Proof. by intros env fx. Qed.

Lemma quiet_throw {A} e : quiet (@throw A e).
Proof. by intros env fx. Qed.

Lemma quiet_send c b : quiet (send c b).
Proof. by intros env fx. Qed.

Lemma quiet_ask : quiet ask.
Proof. by intros env fx. Qed.

Lemma quiet_console_write l : quiet (console_write l).
Proof. by intros env fx. Qed.

Lemma quiet_bind {A B} (m : Handler A) (k : A -> Handler B) :
  quiet m -> (forall a, quiet (k a)) -> quiet (m ≫= k).
Proof.
  intros Hm Hk env fx. unfold mbind, handler_bind.
  specialize (Hm env fx). destruct (m env fx) as [[a|e] fx']; simpl in *.
  - by rewrite Hk.
  - done.
Qed.

Lemma quiet_single {A} (m : Handler A) : quiet m -> single m.
Proof. intros Hm env fx. left. apply Hm. Qed.

Lemma single_bind_quiet_first {A B} (m : Handler A) (k : A -> Handler B) :
  quiet m -> (forall a, single (k a)) -> single (m ≫= k).
Proof.
  intros Hm Hk env fx. unfold mbind, handler_bind.
  specialize (Hm env fx). destruct (m env fx) as [[a|e] fx']; simpl in *.
  - rewrite <- Hm. apply Hk.
  - by left.
Qed.

Lemma single_bind_quiet_rest {A B} (m : Handler A) (k : A -> Handler B) :
  single m -> (forall a, quiet (k a)) -> single (m ≫= k).
Proof.
  intros Hm Hk env fx. unfold mbind, handler_bind.
  specialize (Hm env fx). destruct (m env fx) as [[a|e] fx']; simpl in *.
  - rewrite (Hk a env fx'). exact Hm.
  - exact Hm.
Qed.

Lemma single_try_catch {A} (m : Handler A) (h : Thrown -> Handler A) :
  single m -> (forall e, quiet (h e)) -> single (try_catch m h).
Proof.
  intros Hm Hh env fx. unfold try_catch.
  specialize (Hm env fx). destruct (m env fx) as [[a|e] fx']; simpl in *.
  - exact Hm.
  - rewrite (Hh e env fx'). exact Hm.
Qed.

Lemma single_axios_request c : single (axios_request c).
Proof. intros env fx. right. by exists c. Qed.

Lemma quiet_get_member v k : quiet (get_member v k).
Proof. by destruct v. Qed.

Lemma quiet_call_trim v : quiet (call_trim v).
Proof. by destruct v. Qed.

Lemma quiet_call_substring v n : quiet (call_substring v n).
Proof. by destruct v. Qed.

Lemma quiet_call_toFixed v : quiet (call_toFixed v).
Proof. by destruct v. Qed.

#[global] Hint Resolve quiet_ret quiet_throw quiet_send quiet_ask quiet_console_write
  quiet_get_member quiet_call_trim quiet_call_substring quiet_call_toFixed : calls.

Ltac quiet_steps :=
  repeat first
    [ apply quiet_bind; [|intros ?]
    | match goal with |- quiet (if ?b then _ else _) => destruct b end
    | match goal with |- quiet (match ?o with Some _ => _ | None => _ end) => destruct o end
    | solve [auto with calls] ].

Lemma quiet_array_map {A B} (f : A -> Handler B) (l : list A) :
  (forall a, quiet (f a)) -> quiet (array_map f l).
Proof.
  intros Hf. induction l as [|x l IH]; simpl; quiet_steps.
Qed.

Lemma quiet_text_missing_or_blank text : quiet (text_missing_or_blank text).
Proof. unfold text_missing_or_blank. quiet_steps. Qed.

Lemma quiet_analyze_catch e : quiet (analyze_catch e).
Proof. unfold analyze_catch. quiet_steps. Qed.

Lemma quiet_batch_catch e : quiet (batch_catch e).
Proof. unfold batch_catch. quiet_steps. Qed.

Lemma single_analyze_forward text : single (analyze_forward text).
Proof.
  unfold analyze_forward.
  apply single_bind_quiet_first; [auto with calls|intros env].
  apply single_bind_quiet_first; [auto with calls|intros t].
  apply single_bind_quiet_rest; [apply single_axios_request|intros response].
  quiet_steps.
Qed.

Lemma single_batch_forward texts : single (batch_forward texts).
Proof.
  unfold batch_forward.
  apply single_bind_quiet_first; [auto with calls|intros env].
  apply single_bind_quiet_first; [apply quiet_array_map; intros; quiet_steps|intros t].
  apply single_bind_quiet_rest; [apply single_axios_request|intros response].
  quiet_steps.
Qed.

Lemma single_api_analyze req_body : single (api_analyze req_body).
Proof.
  apply single_try_catch; [|apply quiet_analyze_catch].
  unfold analyze_try.
  apply single_bind_quiet_first; [auto with calls|intros text].
  apply single_bind_quiet_first; [apply quiet_text_missing_or_blank|intros [|]].
  - apply quiet_single; auto with calls.
  - destruct (bool_decide _); [apply quiet_single; auto with calls|].
    apply single_analyze_forward.
Qed.

Lemma single_api_batch_analyze req_body : single (api_batch_analyze req_body).
Proof.
  apply single_try_catch; [|apply quiet_batch_catch].
  unfold batch_try.
  apply single_bind_quiet_first; [auto with calls|intros texts].
  destruct (_ || _); [apply quiet_single; auto with calls|].
  destruct (bool_decide _); [apply quiet_single; auto with calls|].
  destruct (validate_each _ _); [apply quiet_single; auto with calls|].
  apply single_batch_forward.
Qed.

(** No fault leaves a handler: whatever the request and the upstream do, a
    response is sent. *)
Lemma try_catch_total {A} (m : Handler A) (h : Thrown -> Handler A) env fx :
  (forall e fx', exists r, (h e env fx').1 = Returned r) ->
  exists r, (try_catch m h env fx).1 = Returned r.
Proof.
  intros Hh. unfold try_catch. destruct (m env fx) as [[a|e] fx']; [by exists a|].
  apply Hh.
Qed.

Lemma api_analyze_total req_body env :
  exists r, (serve (api_analyze req_body) env).1 = Returned r.
Proof. apply try_catch_total. intros e fx'. apply analyze_catch_total. Qed.

Lemma api_batch_analyze_total req_body env :
  exists r, (serve (api_batch_analyze req_body) env).1 = Returned r.
Proof. apply try_catch_total. intros e fx'. apply batch_catch_total. Qed.

(** * The properties of the specification *)

(** ** POST /api/analyze: validation *)

(** C5: a [text] that is a string of zero length after trimming is answered
    with HTTP 400 and the body [{ error: "Text is required and cannot be
    empty" }], without details and without any effect: that is the only
    outcome. *)
Theorem analyze_rejects_blank_text env props s :
  own_property props (lit "text") = JStr s ->
  js_length (trim s) = 0 ->
  serve (api_analyze (JObj props)) env =
    (Returned (error_reply 400 (lit "Text is required and cannot be empty") None),
     no_effects).
Proof.
  intros Htext Hblank. unfold serve, api_analyze, try_catch.
  by rewrite (analyze_try_blank env props s Htext no_effects Hblank).
Qed.

Lemma analyze_rejects_blank_text_witness :
  serve (api_analyze (text_body (JStr (lit "   ")))) idle_env =
    (Returned (error_reply 400 (lit "Text is required and cannot be empty") None),
     no_effects).
Proof.
  apply (analyze_rejects_blank_text idle_env _ (lit "   ")); reflexivity.
Defined.

(** C1, as the specification states it, fails: 5001 spaces are longer than
    5000 characters, and the answer is the empty-text error, not the too-long
    error. *)
Lemma long_blank_text_is_not_too_long :
  js_length spaces_5001 > 5000 /\
  serve (api_analyze (text_body (JStr spaces_5001))) idle_env =
    (Returned (error_reply 400 (lit "Text is required and cannot be empty") None),
     no_effects) /\
  (serve (api_analyze (text_body (JStr spaces_5001))) idle_env).1 <>
    Returned (error_reply 400 (lit "Text too long. Maximum 5000 characters allowed.") None).
Proof.
  split; [by vm_compute|]. split; [by vm_compute|].
  closed_neq.
Qed.

(** C1, amended: a [text] longer than 5000 characters is answered with HTTP
    400 and no upstream call; with the too-long error when it is not empty
    after trimming, however short the trimmed text is, and with the
    empty-text error when it is, because the empty check runs first. *)
Theorem analyze_rejects_long_text env props s :
  own_property props (lit "text") = JStr s ->
  js_length s > 5000 ->
  serve (api_analyze (JObj props)) env =
    (Returned (error_reply 400
       (if bool_decide (js_length (trim s) = 0)
        then lit "Text is required and cannot be empty"
        else lit "Text too long. Maximum 5000 characters allowed.") None),
     no_effects).
Proof.
  intros Htext Hlong. unfold serve, api_analyze, try_catch.
  case_bool_decide as Hblank.
  - by rewrite (analyze_try_blank env props s Htext no_effects Hblank).
  - by rewrite (analyze_try_too_long env props s Htext no_effects Hblank Hlong).
Qed.

Lemma analyze_rejects_long_text_witness :
  serve (api_analyze (text_body (JStr letter_then_spaces))) idle_env =
    (Returned (error_reply 400 (lit "Text too long. Maximum 5000 characters allowed.") None),
     no_effects).
Proof.
  apply (analyze_rejects_long_text idle_env _ letter_then_spaces);
    [reflexivity | by vm_compute].
Defined.

(** C9: a truthy [text] that is not a string is not answered with a 400:
    [text.trim] throws, the catch block finds neither ECONNREFUSED nor a
    response nor ENOTFOUND, and the client receives HTTP 500 "Internal server
    error"; no upstream call is made. *)
Theorem analyze_non_string_text_is_internal_error env props text :
  own_property props (lit "text") = text ->
  truthy text = true ->
  (forall s, text <> JStr s) ->
  (serve (api_analyze (JObj props)) env).1 =
    Returned (error_reply 500 (lit "Internal server error")
      (Some (JStr (lit "An unexpected error occurred while processing your request"))))
  /\ calls (serve (api_analyze (JObj props)) env).2 = [].
Proof.
  intros Htext Htruthy Hnot.
  unfold serve, api_analyze, try_catch, analyze_try, text_missing_or_blank.
  run_handler. rewrite Htext, Htruthy. simpl.
  destruct text as [| | | |s| |]; try done.
  by destruct (Hnot s).
Qed.

Lemma analyze_non_string_text_is_internal_error_witness :
  (serve (api_analyze (text_body (JNum (S754_finite false 42 0)))) idle_env).1 =
    Returned (error_reply 500 (lit "Internal server error")
      (Some (JStr (lit "An unexpected error occurred while processing your request"))))
  /\ calls (serve (api_analyze (text_body (JNum (S754_finite false 42 0)))) idle_env).2 = [].
Proof.
  apply (analyze_non_string_text_is_internal_error idle_env _
           (JNum (S754_finite false 42 0)));
    [reflexivity | reflexivity | intros s H; discriminate H].
Defined.

(** ** POST /api/batch-analyze: validation *)

(** A sized array of strings that are non-empty after trimming is forwarded
    in one call, whatever the upstream then does. *)
Lemma batch_forwards_strings env props (ss : list jsstring) :
  own_property props (lit "texts") = JArr (JStr <$> ss) ->
  1 <= js_length ss <= 100 ->
  Forall (fun s => js_length (trim s) <> 0) ss ->
  calls (serve (api_batch_analyze (JObj props)) env).2 = [batch_call env (trim <$> ss)].
Proof.
  intros Htexts Hsize Hss. unfold serve, api_batch_analyze, try_catch.
  rewrite (batch_try_sized env props (JStr <$> ss) Htexts no_effects)
    by (unfold js_length in *; by rewrite length_fmap).
  rewrite validate_each_strings by done.
  pose proof (batch_forward_calls ss env no_effects) as Hcalls.
  destruct (batch_forward (JStr <$> ss) env no_effects) as [[r|e] fx]; simpl in *.
  - done.
  - by rewrite batch_catch_effects.
Qed.

(** A string that is non-empty after trimming and at most 5000 characters
    long is forwarded in one call, whatever the upstream then does. *)
Lemma analyze_forwards_string env props s :
  own_property props (lit "text") = JStr s ->
  js_length (trim s) <> 0 ->
  js_length s <= 5000 ->
  calls (serve (api_analyze (JObj props)) env).2 = [analyze_call env (trim s)].
Proof.
  intros Htext Hnonblank Hshort. unfold serve, api_analyze, try_catch.
  rewrite (analyze_try_valid env props s Htext no_effects Hnonblank Hshort).
  pose proof (analyze_forward_calls s env no_effects) as Hcalls.
  destruct (analyze_forward (JStr s) env no_effects) as [[r|e] fx]; simpl in *.
  - done.
  - by rewrite analyze_catch_effects.
Qed.

(** C3: the validation loop scans left to right and stops at the first
    index [i] whose element is not a string or is empty after trimming,
    whatever comes after it; the route, whose size checks run before the loop,
    then answers with HTTP 400 "Text at index i is invalid or empty" and makes
    no upstream call. *)
Theorem batch_reports_first_invalid_index env props elems (i : nat) v :
  own_property props (lit "texts") = JArr elems ->
  elems !! i = Some v ->
  not_string_or_blank v ->
  (forall j w, (j < i)%nat -> elems !! j = Some w -> ~ not_string_or_blank w) ->
  validate_each 0 elems = Some (Z.of_nat i)
  /\ (js_length elems <= 100 ->
      serve (api_batch_analyze (JObj props)) env =
        (Returned (error_reply 400
           (lit "Text at index " ++ decimal (Z.of_nat i) ++ lit " is invalid or empty")
           None),
         no_effects)).
Proof.
  intros Htexts Hi Hv Hbefore.
  assert (validate_each 0 elems = Some (Z.of_nat i)) as Hloop.
  { rewrite (validate_each_first elems 0 i v Hi); [done| |].
    - by apply invalid_text_spec.
    - intros j w Hj Hw. specialize (Hbefore j w Hj Hw).
      rewrite <- invalid_text_spec in Hbefore. by destruct (invalid_text w). }
  split; [done|]. intros Hsize.
  apply lookup_lt_Some in Hi.
  unfold serve, api_batch_analyze, try_catch.
  rewrite (batch_try_sized env props elems Htexts no_effects)
    by (unfold js_length in *; lia).
  by rewrite Hloop.
Qed.

(** The example of the specification: ["ok", "", "  "] reports index 1. *)
Lemma batch_reports_first_invalid_index_witness :
  serve (api_batch_analyze
           (texts_body (JArr [JStr (lit "ok"); JStr (lit ""); JStr (lit "  ")])))
        idle_env =
    (Returned (error_reply 400 (lit "Text at index 1 is invalid or empty") None),
     no_effects).
Proof.
  apply (batch_reports_first_invalid_index idle_env _
           [JStr (lit "ok"); JStr (lit ""); JStr (lit "  ")] 1 (JStr (lit ""))).
  - reflexivity.
  - reflexivity.
  - reflexivity.
  - intros j w Hj Hw. destruct j as [|j]; [|lia].
    injection Hw as <-. closed_neq.
  - closed_neq.
Defined.

(** C4: an empty [texts] array is answered with the empty-array error, one of
    more than 100 elements with the too-many error; an array of 1 to 100
    strings, each non-empty after trimming, is forwarded: the one outbound call
    carries the trimmed strings, as many as were sent and in the same order. *)
Theorem batch_size_limits_and_forwarding :
  (forall env props,
     own_property props (lit "texts") = JArr [] ->
     serve (api_batch_analyze (JObj props)) env =
       (Returned (error_reply 400 (lit "Texts array is required and cannot be empty") None),
        no_effects))
  /\
  (forall env props elems,
     own_property props (lit "texts") = JArr elems ->
     js_length elems > 100 ->
     serve (api_batch_analyze (JObj props)) env =
       (Returned
          (error_reply 400 (lit "Too many texts. Maximum 100 texts allowed per batch.") None),
        no_effects))
  /\
  (forall env props (ss : list jsstring),
     own_property props (lit "texts") = JArr (JStr <$> ss) ->
     1 <= js_length ss <= 100 ->
     Forall (fun s => js_length (trim s) <> 0) ss ->
     calls (serve (api_batch_analyze (JObj props)) env).2 = [batch_call env (trim <$> ss)]
     /\ length (trim <$> ss) = length ss
     /\ forall k s, ss !! k = Some s -> (trim <$> ss) !! k = Some (trim s)).
Proof.
  split; [|split].
  - intros env props Htexts. unfold serve, api_batch_analyze, try_catch.
    by rewrite (batch_try_empty env props [] Htexts no_effects).
  - intros env props elems Htexts Hmany. unfold serve, api_batch_analyze, try_catch.
    by rewrite (batch_try_too_many env props elems Htexts no_effects Hmany).
  - intros env props ss Htexts Hsize Hss. split; [|split].
    + by apply batch_forwards_strings.
    + apply length_fmap.
    + intros k s Hk. by rewrite list_lookup_fmap, Hk.
Qed.

Lemma batch_size_limits_and_forwarding_witness :
  calls (serve (api_batch_analyze
                  (texts_body (JArr [JStr (lit " good "); JStr (lit "bad  ")])))
               idle_env).2 =
    [batch_call idle_env [lit "good"; lit "bad"]].
Proof.
  apply (proj2 (proj2 batch_size_limits_and_forwarding) idle_env _
           [lit " good "; lit "bad  "]).
  - reflexivity.
  - vm_compute. split; intros H; discriminate H.
  - repeat constructor; closed_neq.
Defined.

(** C10: the batch route has no limit on the length of an element: an array
    of 1 to 100 strings, each non-empty after trimming, is forwarded also when
    one of them is longer than 5000 characters, which the single-text route
    answers with the too-long error. *)
Theorem batch_has_no_element_length_limit env props props1 (ss : list jsstring) s :
  own_property props (lit "texts") = JArr (JStr <$> ss) ->
  1 <= js_length ss <= 100 ->
  Forall (fun s => js_length (trim s) <> 0) ss ->
  s ∈ ss ->
  js_length s > 5000 ->
  own_property props1 (lit "text") = JStr s ->
  calls (serve (api_batch_analyze (JObj props)) env).2 = [batch_call env (trim <$> ss)]
  /\ serve (api_analyze (JObj props1)) env =
       (Returned (error_reply 400 (lit "Text too long. Maximum 5000 characters allowed.") None),
        no_effects).
Proof.
  intros Htexts Hsize Hss Hin Hlong Htext. split.
  - by apply batch_forwards_strings.
  - unfold serve, api_analyze, try_catch.
    rewrite Forall_forall in Hss.
    by rewrite (analyze_try_too_long env props1 s Htext no_effects (Hss s Hin) Hlong).
Qed.

Lemma batch_has_no_element_length_limit_witness :
  calls (serve (api_batch_analyze (texts_body (JArr [JStr letter_then_spaces]))) idle_env).2 =
    [batch_call idle_env [[65%N]]]
  /\ serve (api_analyze (text_body (JStr letter_then_spaces))) idle_env =
       (Returned (error_reply 400 (lit "Text too long. Maximum 5000 characters allowed.") None),
        no_effects).
Proof.
  apply (batch_has_no_element_length_limit idle_env _ _ [letter_then_spaces]
           letter_then_spaces).
  - reflexivity.
  - vm_compute. split; intros H; discriminate H.
  - repeat constructor. closed_neq.
  - apply list_elem_of_here.
  - by vm_compute.
  - reflexivity.
Defined.

(** ** Upstream failures *)

(** What the analyze route answers when axios rejects a forwarded request. *)
Lemma analyze_rejected_outcome env props s e :
  own_property props (lit "text") = JStr s ->
  js_length (trim s) <> 0 ->
  js_length s <= 5000 ->
  settle (upstream env (analyze_call env (trim s))) = Threw e ->
  (serve (api_analyze (JObj props)) env).1 =
    (analyze_catch e env {| calls := [analyze_call env (trim s)]; console := [] |}).1.
Proof.
  intros Htext Hnonblank Hshort Hrej. unfold serve, api_analyze, try_catch.
  rewrite (analyze_try_valid env props s Htext no_effects Hnonblank Hshort).
  by rewrite (analyze_forward_rejected s env no_effects e Hrej).
Qed.

(** What the batch route answers when axios rejects a forwarded request. *)
Lemma batch_rejected_outcome env props (ss : list jsstring) e :
  own_property props (lit "texts") = JArr (JStr <$> ss) ->
  1 <= js_length ss <= 100 ->
  Forall (fun s => js_length (trim s) <> 0) ss ->
  settle (upstream env (batch_call env (trim <$> ss))) = Threw e ->
  (serve (api_batch_analyze (JObj props)) env).1 =
    (batch_catch e env {| calls := [batch_call env (trim <$> ss)]; console := [] |}).1.
Proof.
  intros Htexts Hsize Hss Hrej. unfold serve, api_batch_analyze, try_catch.
  rewrite (batch_try_sized env props (JStr <$> ss) Htexts no_effects)
    by (unfold js_length in *; by rewrite length_fmap).
  rewrite validate_each_strings by done.
  by rewrite (batch_forward_rejected ss env no_effects e Hrej).
Qed.


(** X10: on the batch route any 2xx answer, whatever its shape, is relayed
    unchanged with status 200; one call was made and one log line written,
    which counts the texts. *)
Lemma batch_relays_answer env props (ss : list jsstring) st data :
  own_property props (lit "texts") = JArr (JStr <$> ss) ->
  1 <= js_length ss <= 100 ->
  Forall (fun s => js_length (trim s) <> 0) ss ->
  upstream env (batch_call env (trim <$> ss)) = Responded st data ->
  200 <= st < 300 ->
  serve (api_batch_analyze (JObj props)) env =
    (Returned {| status := 200; body := DataBody data |},
     {| calls := [batch_call env (trim <$> ss)];
        console := [LogBatch (js_length ss)] |}).
Proof.
  intros Htexts Hsize Hss Hup Hst. unfold serve, api_batch_analyze, try_catch.
  rewrite (batch_try_sized env props (JStr <$> ss) Htexts no_effects)
    by (unfold js_length in *; by rewrite length_fmap).
  rewrite validate_each_strings by done.
  unfold batch_forward. run_handler.
  match goal with
  | |- context [array_map ?f ?l env no_effects] =>
      replace (array_map f l env no_effects)
        with (Returned (JStr <$> (trim <$> ss)), no_effects)
        by (symmetry; apply array_map_trim)
  end.
  fold (batch_call env (trim <$> ss)). rewrite Hup. simpl.
  rewrite bool_decide_eq_true_2 by done. simpl.
  unfold js_length. by rewrite length_fmap.
Qed.

(** C6: when the upstream answers a forwarded analyze or batch-analyze
    request with a status outside [200, 300), the gateway answers with that
    same status, the error "AI service error" and the upstream body as
    details. *)
Theorem upstream_http_error_passes_through :
  (forall env props s st data,
     own_property props (lit "text") = JStr s ->
     js_length (trim s) <> 0 ->
     js_length s <= 5000 ->
     upstream env (analyze_call env (trim s)) = Responded st data ->
     ~ (200 <= st < 300) ->
     (serve (api_analyze (JObj props)) env).1 =
       Returned (error_reply st (lit "AI service error") (Some data)))
  /\
  (forall env props (ss : list jsstring) st data,
     own_property props (lit "texts") = JArr (JStr <$> ss) ->
     1 <= js_length ss <= 100 ->
     Forall (fun s => js_length (trim s) <> 0) ss ->
     upstream env (batch_call env (trim <$> ss)) = Responded st data ->
     ~ (200 <= st < 300) ->
     (serve (api_batch_analyze (JObj props)) env).1 =
       Returned (error_reply st (lit "AI service error") (Some data))).
Proof.
  split.
  - intros env props s st data Htext Hnonblank Hshort Hup Hst.
    destruct (settle_http_error st data Hst) as (e & He & Hcode & Hresp).
    rewrite <- Hup in He.
    rewrite (analyze_rejected_outcome env props s e) by done.
    by rewrite (analyze_catch_passthrough e _ Hcode Hresp).
  - intros env props ss st data Htexts Hsize Hss Hup Hst.
    destruct (settle_http_error st data Hst) as (e & He & Hcode & Hresp).
    rewrite <- Hup in He.
    rewrite (batch_rejected_outcome env props ss e) by done.
    by rewrite (batch_catch_passthrough e _ Hcode Hresp).
Qed.

(** An upstream 422 with the body "bad" is answered with 422 and details
    "bad". *)
Lemma upstream_http_error_passes_through_witness :
  (serve (api_analyze (text_body (JStr (lit "I love this!"))))
         (constant_upstream (Responded 422 (JStr (lit "bad"))))).1 =
    Returned (error_reply 422 (lit "AI service error") (Some (JStr (lit "bad")))).
Proof.
  apply (proj1 upstream_http_error_passes_through
           (constant_upstream (Responded 422 (JStr (lit "bad")))) _ (lit "I love this!")).
  - reflexivity.
  - closed_neq.
  - closed_neq.
  - reflexivity.
  - lia.
Defined.

(** C2 fails on the batch route. An upstream whose host name does not
    resolve makes axios reject with code ENOTFOUND and no response: the
    analyze route answers with 503 "AI service configuration error", the batch
    route, whose catch block has no ENOTFOUND branch, with 500 "Internal server
    error". *)
Theorem batch_name_resolution_failure_is_500 :
  let env := constant_upstream
               (NoResponse (lit "ENOTFOUND") (lit "getaddrinfo ENOTFOUND sentiment")) in
  (serve (api_batch_analyze (texts_body (JArr [JStr (lit "hello")]))) env).1 =
    Returned (error_reply 500 (lit "Internal server error")
      (Some (JStr (lit "An unexpected error occurred while processing batch request"))))
  /\
  (serve (api_analyze (text_body (JStr (lit "hello")))) env).1 =
    Returned (error_reply 503 (lit "AI service configuration error")
      (Some (JStr (lit "Cannot resolve AI service hostname")))).
Proof. split; reflexivity. Qed.

(** On every valid request the two routes map ENOTFOUND as above. *)
Lemma analyze_name_resolution_failure env props s m :
  own_property props (lit "text") = JStr s ->
  js_length (trim s) <> 0 ->
  js_length s <= 5000 ->
  upstream env (analyze_call env (trim s)) = NoResponse (lit "ENOTFOUND") m ->
  (serve (api_analyze (JObj props)) env).1 =
    Returned (error_reply 503 (lit "AI service configuration error")
      (Some (JStr (lit "Cannot resolve AI service hostname")))).
Proof.
  intros Htext Hnonblank Hshort Hup.
  assert (settle (upstream env (analyze_call env (trim s))) =
            Threw (ThrownAxios {| ax_message := m; ax_code := Some (lit "ENOTFOUND");
                                  ax_response := None |})) as Hrej
    by (by rewrite Hup).
  by rewrite (analyze_rejected_outcome env props s _ Htext Hnonblank Hshort Hrej).
Qed.

Lemma batch_name_resolution_failure env props (ss : list jsstring) m :
  own_property props (lit "texts") = JArr (JStr <$> ss) ->
  1 <= js_length ss <= 100 ->
  Forall (fun s => js_length (trim s) <> 0) ss ->
  upstream env (batch_call env (trim <$> ss)) = NoResponse (lit "ENOTFOUND") m ->
  (serve (api_batch_analyze (JObj props)) env).1 =
    Returned (error_reply 500 (lit "Internal server error")
      (Some (JStr (lit "An unexpected error occurred while processing batch request")))).
Proof.
  intros Htexts Hsize Hss Hup.
  assert (settle (upstream env (batch_call env (trim <$> ss))) =
            Threw (ThrownAxios {| ax_message := m; ax_code := Some (lit "ENOTFOUND");
                                  ax_response := None |})) as Hrej
    by (by rewrite Hup).
  by rewrite (batch_rejected_outcome env props ss _ Htexts Hsize Hss Hrej).
Qed.

(** ** GET /api/health *)

(** C7: [GET /api/health] reports [web_service: "healthy"] on both paths. When
    the upstream health call fails the answer is HTTP 503 with [ai_service:
    "unavailable"] and the error message; when it succeeds the answer is HTTP
    200 with the upstream body as [ai_service]. *)
Theorem health_always_reports_web_service_healthy env :
  exists r h,
    serve api_health env = (Returned r, {| calls := [health_call env]; console := [] |})
    /\ body r = HealthBody h
    /\ web_service h = lit "healthy"
    /\ (forall e, settle (upstream env (health_call env)) = Threw e ->
          status r = 503
          /\ ai_service h = JStr (lit "unavailable")
          /\ health_error h = Some (err_message e))
    /\ (forall response, settle (upstream env (health_call env)) = Returned response ->
          status r = 200
          /\ ai_service h = resp_data response
          /\ health_error h = None).
Proof.
  unfold api_health. run_handler. fold (health_call env).
  destruct (settle (upstream env (health_call env))) as [response|e];
    (eexists; eexists; split; [reflexivity|]); simpl;
    (split; [reflexivity|]); (split; [reflexivity|]); split; intros x Hx;
    by inversion Hx.
Qed.

Lemma health_always_reports_web_service_healthy_witness :
  let env := constant_upstream (NoResponse (lit "ECONNREFUSED") (lit "connect ECONNREFUSED")) in
  exists r h,
    (serve api_health env).1 = Returned r
    /\ body r = HealthBody h
    /\ web_service h = lit "healthy"
    /\ status r = 503
    /\ ai_service h = JStr (lit "unavailable").
Proof.
  intros env.
  destruct (health_always_reports_web_service_healthy env)
    as (r & h & Hrun & Hbody & Hweb & Hdown & _).
  exists r, h. rewrite Hrun. repeat split; try assumption.
  - exact (proj1 (Hdown _ eq_refl)).
  - exact (proj1 (proj2 (Hdown _ eq_refl))).
Defined.

(** ** Validation before forwarding, one call per validated request *)

Lemma analyze_try_falsy env props fx :
  truthy (own_property props (lit "text")) = false ->
  analyze_try (JObj props) env fx =
    (Returned (error_reply 400 (lit "Text is required and cannot be empty") None), fx).
Proof.
  intros Hfalsy. unfold analyze_try, text_missing_or_blank. run_handler.
  by rewrite Hfalsy.
Qed.

Lemma single_at_most_one (h : Handler Response) env :
  single h -> (length (calls (serve h env).2) <= 1)%nat.
Proof.
  intros Hh. unfold serve. destruct (Hh env no_effects) as [->|[c ->]]; simpl; lia.
Qed.

(** C8: a payload that fails validation is answered with a 400 and no
    outbound call, on both routes; a payload that passes is forwarded in
    exactly one call; and no request at all causes more than one call. *)
Theorem validation_short_circuits_before_forwarding :
  (forall env props,
     truthy (own_property props (lit "text")) = false \/
     (exists s, own_property props (lit "text") = JStr s
                /\ (js_length (trim s) = 0 \/ js_length s > 5000)) ->
     exists msg,
       serve (api_analyze (JObj props)) env =
         (Returned (error_reply 400 msg None), no_effects))
  /\
  (forall env props s,
     own_property props (lit "text") = JStr s ->
     js_length (trim s) <> 0 ->
     js_length s <= 5000 ->
     calls (serve (api_analyze (JObj props)) env).2 = [analyze_call env (trim s)])
  /\
  (forall env props,
     isArray (own_property props (lit "texts")) = false \/
     (exists elems, own_property props (lit "texts") = JArr elems
                    /\ (js_length elems = 0 \/ js_length elems > 100
                        \/ Exists not_string_or_blank elems)) ->
     exists msg,
       serve (api_batch_analyze (JObj props)) env =
         (Returned (error_reply 400 msg None), no_effects))
  /\
  (forall env props (ss : list jsstring),
     own_property props (lit "texts") = JArr (JStr <$> ss) ->
     1 <= js_length ss <= 100 ->
     Forall (fun s => js_length (trim s) <> 0) ss ->
     calls (serve (api_batch_analyze (JObj props)) env).2 = [batch_call env (trim <$> ss)])
  /\
  (forall env req_body,
     (length (calls (serve (api_analyze req_body) env).2) <= 1)%nat
     /\ (length (calls (serve (api_batch_analyze req_body) env).2) <= 1)%nat).
Proof.
  repeat apply conj.
  - intros env props [Hfalsy|(s & Htext & Hbad)].
    + eexists. unfold serve, api_analyze, try_catch.
      by rewrite (analyze_try_falsy env props no_effects Hfalsy).
    + unfold serve, api_analyze, try_catch.
      destruct (decide (js_length (trim s) = 0)) as [Hblank|Hnonblank].
      * eexists. by rewrite (analyze_try_blank env props s Htext no_effects Hblank).
      * destruct Hbad as [?|Hlong]; [done|]. eexists.
        by rewrite (analyze_try_too_long env props s Htext no_effects Hnonblank Hlong).
  - apply analyze_forwards_string.
  - intros env props [Hno|(elems & Htexts & Hbad)];
      unfold serve, api_batch_analyze, try_catch.
    + eexists. by rewrite (batch_try_not_array props env no_effects Hno).
    + destruct (decide (js_length elems = 0)) as [Hzero|Hzero].
      { eexists. by rewrite (batch_try_empty env props elems Htexts no_effects Hzero). }
      destruct (decide (js_length elems > 100)) as [Hmany|Hmany].
      { eexists. by rewrite (batch_try_too_many env props elems Htexts no_effects Hmany). }
      pose proof (js_length_nonneg elems) as Hnonneg.
      rewrite (batch_try_sized env props elems Htexts no_effects) by lia.
      destruct (validate_each 0 elems) as [i|] eqn:Hloop; [by eexists|].
      destruct Hbad as [?|[?|Hex]]; [done..|].
      apply validate_each_none in Hloop. apply Exists_exists in Hex as (v & Hin & Hv).
      rewrite Forall_forall in Hloop. apply invalid_text_spec in Hv.
      specialize (Hloop v Hin). congruence.
  - apply batch_forwards_strings.
  - intros env req_body. split; apply single_at_most_one.
    + apply single_api_analyze.
    + apply single_api_batch_analyze.
Qed.

Lemma validation_short_circuits_before_forwarding_witness :
  (exists msg,
     serve (api_analyze (text_body (JStr (lit " ")))) idle_env =
       (Returned (error_reply 400 msg None), no_effects))
  /\ calls (serve (api_analyze (text_body (JStr (lit " hi ")))) idle_env).2 =
       [analyze_call idle_env (lit "hi")]
  /\ (exists msg,
        serve (api_batch_analyze (texts_body (JArr [JStr (lit "a"); JNull]))) idle_env =
          (Returned (error_reply 400 msg None), no_effects))
  /\ calls (serve (api_batch_analyze (texts_body (JArr [JStr (lit " a ")]))) idle_env).2 =
       [batch_call idle_env [lit "a"]].
Proof.
  destruct validation_short_circuits_before_forwarding
    as (Hreject & Hforward & Hreject_batch & Hforward_batch & _).
  repeat apply conj.
  - apply (Hreject idle_env [(lit "text", JStr (lit " "))]).
    right. exists (lit " "). split; [reflexivity|left; reflexivity].
  - apply (Hforward idle_env _ (lit " hi ")).
    + reflexivity.
    + closed_neq.
    + closed_neq.
  - apply (Hreject_batch idle_env [(lit "texts", JArr [JStr (lit "a"); JNull])]).
    right. exists [JStr (lit "a"); JNull]. split; [reflexivity|].
    right. right. apply Exists_cons_tl, Exists_cons_hd. exact I.
  - apply (Hforward_batch idle_env _ [lit " a "]).
    + reflexivity.
    + vm_compute. split; intros H; discriminate H.
    + repeat constructor. closed_neq.
Defined.

(** * Further properties of the code *)

(** ** What [trim] returns *)

Lemma trimStart_clean s : clean_start (trimStart s).
Proof.
  induction s as [|c r IH]; simpl; [done|].
  by destruct (is_white_space c) eqn:Hc.
Qed.

Lemma clean_start_fixed s : clean_start s -> trimStart s = s.
Proof. destruct s as [|c r]; simpl; [done|]. by intros ->. Qed.

Lemma trimStart_suffix s : exists k, s = k ++ trimStart s.
Proof.
  induction s as [|c r [k Hk]]; simpl; [by exists []|].
  destruct (is_white_space c).
  - exists (c :: k). simpl. by f_equal.
  - by exists [].
Qed.

Lemma clean_start_prefix (p q : jsstring) : clean_start (p ++ q) -> clean_start p.
Proof. by destruct p. Qed.

Lemma trim_clean_start s : clean_start (trim s).
Proof.
  unfold trim, trimEnd.
  destruct (trimStart_suffix (reverse (trimStart s))) as [k Hk].
  apply (f_equal reverse) in Hk. rewrite reverse_involutive, reverse_app in Hk.
  apply (clean_start_prefix _ (reverse k)). rewrite <- Hk. apply trimStart_clean.
Qed.

Lemma trim_clean_end s : clean_start (reverse (trim s)).
Proof.
  unfold trim, trimEnd. rewrite reverse_involutive. apply trimStart_clean.
Qed.

Lemma trim_idempotent s : trim (trim s) = trim s.
Proof.
  unfold trim at 1. rewrite (clean_start_fixed (trim s)) by apply trim_clean_start.
  unfold trimEnd. rewrite (clean_start_fixed (reverse (trim s))) by apply trim_clean_end.
  apply reverse_involutive.
Qed.

Lemma trim_forwardable s :
  js_length (trim s) <> 0 -> js_length s <= 5000 -> forwardable_text (trim s).
Proof.
  intros Hnonblank Hshort. split; [|split].
  - by rewrite <- js_length_zero.
  - apply trim_idempotent.
  - pose proof (trim_length s). lia.
Qed.

(** ** Every path through POST /api/analyze *)

(** The validation block ends in one of four ways: the empty-text answer,
    the too-long answer, a [TypeError], or the forwarding block on a string
    that is not blank and not too long. *)
Lemma analyze_try_cases req_body env fx :
  analyze_try req_body env fx =
    (Returned (error_reply 400 (lit "Text is required and cannot be empty") None), fx)
  \/ analyze_try req_body env fx =
       (Returned (error_reply 400 (lit "Text too long. Maximum 5000 characters allowed.")
                    None), fx)
  \/ (exists m, analyze_try req_body env fx = (Threw (TypeError m), fx))
  \/ (exists s, js_length (trim s) <> 0 /\ js_length s <= 5000
        /\ analyze_try req_body env fx = analyze_forward (JStr s) env fx).
Proof.
  destruct req_body as [| | | | | |props];
    try (by left); try (by right; right; left; eexists).
  destruct (own_property props (lit "text")) as [| |b|x|s| |] eqn:Htext.
  1,2: left; by apply analyze_try_falsy; rewrite Htext.
  - destruct b.
    + right; right; left. eexists. unfold analyze_try, text_missing_or_blank.
      run_handler. by rewrite Htext.
    + left. by apply analyze_try_falsy; rewrite Htext.
  - destruct (truthy (JNum x)) eqn:Htruthy.
    + right; right; left. eexists. unfold analyze_try, text_missing_or_blank.
      run_handler. rewrite Htext, Htruthy. reflexivity.
    + left. by apply analyze_try_falsy; rewrite Htext.
  - destruct (decide (js_length (trim s) = 0)) as [Hblank|Hnonblank].
    { left. by apply (analyze_try_blank env props s). }
    destruct (decide (js_length s > 5000)) as [Hlong|Hshort].
    { right; left. by apply (analyze_try_too_long env props s). }
    right; right; right. exists s. split; [done|]. split; [lia|].
    apply (analyze_try_valid env props s); [done..|lia].
  - right; right; left. eexists. unfold analyze_try, text_missing_or_blank.
    run_handler. by rewrite Htext.
  - right; right; left. eexists. unfold analyze_try, text_missing_or_blank.
    run_handler. by rewrite Htext.
Qed.

(** The forwarding block makes its call and then ends in one of three ways:
    axios rejects, the log line throws, or the answer is relayed. *)
Lemma analyze_forward_cases s env fx :
  (exists e, settle (upstream env (analyze_call env (trim s))) = Threw e
             /\ analyze_forward (JStr s) env fx =
                  (Threw e, {| calls := calls fx ++ [analyze_call env (trim s)];
                               console := console fx |}))
  \/ (exists response m,
        settle (upstream env (analyze_call env (trim s))) = Returned response
        /\ (forall fields x, resp_data response = JObj fields ->
              own_property fields (lit "confidence") <> JNum x)
        /\ analyze_forward (JStr s) env fx =
             (Threw (TypeError m),
              {| calls := calls fx ++ [analyze_call env (trim s)];
                 console := console fx |}))
  \/ (exists response fields x,
        settle (upstream env (analyze_call env (trim s))) = Returned response
        /\ resp_data response = JObj fields
        /\ own_property fields (lit "confidence") = JNum x
        /\ analyze_forward (JStr s) env fx =
             (Returned {| status := 200; body := DataBody (resp_data response) |},
              {| calls := calls fx ++ [analyze_call env (trim s)];
                 console := console fx ++
                   [LogAnalyzed (take 50 s) (own_property fields (lit "sentiment")) x] |})).
Proof.
  unfold analyze_forward. run_handler. fold (analyze_call env (trim s)).
  destruct (settle (upstream env (analyze_call env (trim s)))) as [response|e].
  2: { left. exists e. split; reflexivity. }
  right. unfold get_member.
  destruct (resp_data response) as [| | | | | |fields] eqn:Hdata;
    try (left; exists response; eexists; split; [reflexivity|]; split; [|reflexivity];
         intros ? ? Hf; congruence).
  run_handler.
  destruct (own_property fields (lit "confidence")) as [| | |x| | |] eqn:Hconf;
    try (left; exists response; eexists; split; [reflexivity|]; split; [|reflexivity];
         intros fields' x' Hf; rewrite Hdata in Hf; injection Hf as <-; congruence).
  right. exists response, fields, x. rewrite Hdata. repeat split; try reflexivity.
  exact Hconf.
Qed.



(** X1: a request whose body has no truthy [text] (the key is missing, or
    its value is [null], [false], [0] or the empty string, or the body is not
    an object at all) is answered with the empty-text 400 and nothing
    else happens. *)
Theorem analyze_rejects_missing_text env req_body :
  req_body <> JUndefined ->
  req_body <> JNull ->
  (forall props, req_body = JObj props ->
     truthy (own_property props (lit "text")) = false) ->
  serve (api_analyze req_body) env =
    (Returned (error_reply 400 (lit "Text is required and cannot be empty") None),
     no_effects).
Proof.
  intros Hundef Hnull Hfalsy. unfold serve, api_analyze, try_catch.
  destruct req_body as [| | | | | |props]; try done.
  by rewrite (analyze_try_falsy env props no_effects (Hfalsy props eq_refl)).
Qed.

Lemma analyze_rejects_missing_text_witness :
  serve (api_analyze (JObj [(lit "texts", JArr [JStr (lit "hello")])])) idle_env =
    (Returned (error_reply 400 (lit "Text is required and cannot be empty") None),
     no_effects).
Proof.
  apply analyze_rejects_missing_text.
  - intros H; discriminate H.
  - intros H; discriminate H.
  - intros props [= <-]. reflexivity.
Defined.

(** X2: whatever the request, a call the analyze route makes carries a
    text that is trimmed, not empty and at most 5000 code units long, to the
    [/analyze] endpoint with the 30 s timeout. *)
Theorem analyze_forwards_only_clean_text env req_body c :
  c ∈ calls (serve (api_analyze req_body) env).2 ->
  exists t, c = analyze_call env t /\ forwardable_text t.
Proof.
  unfold serve, api_analyze, try_catch.
  destruct (analyze_try_cases req_body env no_effects)
    as [H|[H|[[m H]|(s & Hnonblank & Hshort & H)]]]; rewrite H; simpl.
  1-3: by intros ?%elem_of_nil.
  pose proof (analyze_forward_calls s env no_effects) as Hcalls.
  destruct (analyze_forward (JStr s) env no_effects) as [[r|e] fx]; simpl in *.
  - rewrite Hcalls. intros ->%list_elem_of_singleton.
    exists (trim s). split; [done|by apply trim_forwardable].
  - rewrite analyze_catch_effects. simpl. rewrite Hcalls.
    intros ->%list_elem_of_singleton.
    exists (trim s). split; [done|by apply trim_forwardable].
Qed.

Lemma analyze_forwards_only_clean_text_witness :
  exists t, analyze_call idle_env (lit "hi") = analyze_call idle_env t
            /\ forwardable_text t.
Proof.
  apply (analyze_forwards_only_clean_text idle_env (text_body (JStr (lit "  hi ")))).
  vm_compute. apply list_elem_of_here.
Defined.

(** X3: when a forwarded analyze request gets no answer, the transport's
    error code decides: ECONNREFUSED gives the 503 "unavailable" answer,
    ENOTFOUND the 503 "configuration error" answer, and any other code, a
    timeout included, the 500 answer. *)
Theorem analyze_transport_failure env props s code m :
  own_property props (lit "text") = JStr s ->
  js_length (trim s) <> 0 ->
  js_length s <= 5000 ->
  upstream env (analyze_call env (trim s)) = NoResponse code m ->
  (serve (api_analyze (JObj props)) env).1 =
    Returned
      (if bool_decide (code = lit "ECONNREFUSED") then service_unavailable
       else if bool_decide (code = lit "ENOTFOUND") then configuration_error
       else internal_error "An unexpected error occurred while processing your request").
Proof.
  intros Htext Hnonblank Hshort Hup.
  assert (settle (upstream env (analyze_call env (trim s))) =
            Threw (ThrownAxios {| ax_message := m; ax_code := Some code;
                                  ax_response := None |})) as Hrej
    by (by rewrite Hup).
  rewrite (analyze_rejected_outcome env props s _ Htext Hnonblank Hshort Hrej).
  unfold analyze_catch. run_handler.
  repeat case_bool_decide; simplify_eq; done.
Qed.

(** A timeout of the 30 s budget surfaces as ECONNABORTED. *)
Lemma analyze_transport_failure_witness :
  (serve (api_analyze (text_body (JStr (lit "I love this!"))))
         (constant_upstream
            (NoResponse (lit "ECONNABORTED") (lit "timeout of 30000ms exceeded")))).1 =
    Returned (internal_error "An unexpected error occurred while processing your request").
Proof.
  apply (analyze_transport_failure
           (constant_upstream
              (NoResponse (lit "ECONNABORTED") (lit "timeout of 30000ms exceeded")))
           _ (lit "I love this!") (lit "ECONNABORTED")
           (lit "timeout of 30000ms exceeded")).
  - reflexivity.
  - closed_neq.
  - closed_neq.
  - reflexivity.
Defined.


(** X5: a 2xx answer without a numeric [confidence] (not an object, or an
    object whose [confidence] is missing or not a number) makes the log line
    throw after the call was made: the client receives the 500 answer although
    the upstream succeeded. *)
Theorem analyze_answer_without_confidence_is_500 env props s st data :
  own_property props (lit "text") = JStr s ->
  js_length (trim s) <> 0 ->
  js_length s <= 5000 ->
  upstream env (analyze_call env (trim s)) = Responded st data ->
  200 <= st < 300 ->
  (forall fields x, data = JObj fields ->
     own_property fields (lit "confidence") <> JNum x) ->
  (serve (api_analyze (JObj props)) env).1 =
    Returned (internal_error "An unexpected error occurred while processing your request")
  /\ calls (serve (api_analyze (JObj props)) env).2 = [analyze_call env (trim s)].
Proof.
  intros Htext Hnonblank Hshort Hup Hst Hconf.
  split; [|by apply analyze_forwards_string].
  unfold serve, api_analyze, try_catch.
  rewrite (analyze_try_valid env props s Htext no_effects Hnonblank Hshort).
  destruct (analyze_forward_cases s env no_effects)
    as [(e & Hs & _)|[(response & m & _ & _ & ->)|(response & fields & x & Hs & Hd & Hc & _)]].
  - rewrite Hup, (settle_success st data Hst) in Hs. discriminate Hs.
  - reflexivity.
  - rewrite Hup, (settle_success st data Hst) in Hs. injection Hs as <-.
    simpl in Hd. by destruct (Hconf fields x Hd).
Qed.

Lemma analyze_answer_without_confidence_is_500_witness :
  (serve (api_analyze (text_body (JStr (lit "I love this!"))))
         (constant_upstream
            (Responded 200 (JObj [(lit "sentiment", JStr (lit "POSITIVE"))])))).1 =
    Returned (internal_error "An unexpected error occurred while processing your request").
Proof.
  apply (analyze_answer_without_confidence_is_500
           (constant_upstream
              (Responded 200 (JObj [(lit "sentiment", JStr (lit "POSITIVE"))])))
           _ (lit "I love this!") 200
           (JObj [(lit "sentiment", JStr (lit "POSITIVE"))])).
  - reflexivity.
  - closed_neq.
  - closed_neq.
  - reflexivity.
  - lia.
  - intros fields x [= <-]. closed_neq.
Defined.


(** ** Every path through POST /api/batch-analyze *)

Lemma validate_each_some (elems : list JsValue) : forall i0 k,
  validate_each i0 elems = Some k ->
  exists n, k = i0 + Z.of_nat n /\ first_invalid elems n.
Proof.
  induction elems as [|v elems IH]; intros i0 k; simpl; [done|].
  destruct (invalid_text v) eqn:Hv.
  - intros [= <-]. exists 0%nat. split; [lia|]. split.
    + exists v. split; [done|]. by apply invalid_text_spec.
    + intros j w Hj. lia.
  - intros (n & -> & (w & Hw & Hbad) & Hbefore)%IH.
    exists (S n). split; [lia|]. split; [by exists w|].
    intros [|j] u Hj Hu; simpl in Hu.
    + injection Hu as <-. rewrite <- invalid_text_spec. by rewrite Hv.
    + apply (Hbefore j); [lia|done].
Qed.

Lemma all_valid_are_strings (elems : list JsValue) :
  Forall (fun v => invalid_text v = false) elems ->
  exists ss : list jsstring,
    elems = JStr <$> ss /\ Forall (fun s => js_length (trim s) <> 0) ss.
Proof.
  induction 1 as [|v elems Hv _ (ss & -> & Hss)]; [by exists []|].
  destruct v as [| | | |s| |]; try discriminate Hv.
  exists (s :: ss). split; [done|]. constructor; [|done].
  simpl in Hv. by apply bool_decide_eq_false_1 in Hv.
Qed.

(** The validation block ends in one of five ways. *)
Lemma batch_try_cases req_body env fx :
  batch_try req_body env fx =
    (Returned (error_reply 400 (lit "Texts array is required and cannot be empty") None),
     fx)
  \/ batch_try req_body env fx =
       (Returned
          (error_reply 400 (lit "Too many texts. Maximum 100 texts allowed per batch.")
             None), fx)
  \/ (exists m, batch_try req_body env fx = (Threw (TypeError m), fx))
  \/ (exists i : nat,
        batch_try req_body env fx =
          (Returned (error_reply 400
             (lit "Text at index " ++ decimal (Z.of_nat i) ++ lit " is invalid or empty")
             None), fx))
  \/ (exists ss : list jsstring,
        1 <= js_length ss <= 100
        /\ Forall (fun s => js_length (trim s) <> 0) ss
        /\ batch_try req_body env fx = batch_forward (JStr <$> ss) env fx).
Proof.
  destruct req_body as [| | | | | |props];
    try (by left); try (by right; right; left; eexists).
  destruct (own_property props (lit "texts")) as [| | | | |elems|] eqn:Htexts;
    try (left; apply batch_try_not_array; by rewrite Htexts).
  destruct (decide (js_length elems = 0)) as [Hzero|Hzero].
  { left. by apply (batch_try_empty env props elems). }
  destruct (decide (js_length elems > 100)) as [Hmany|Hmany].
  { right; left. by apply (batch_try_too_many env props elems). }
  pose proof (js_length_nonneg elems) as Hnonneg.
  rewrite (batch_try_sized env props elems Htexts fx) by lia.
  destruct (validate_each 0 elems) as [k|] eqn:Hloop.
  - apply validate_each_some in Hloop as (n & -> & _).
    do 3 right; left. exists n. by rewrite Z.add_0_l.
  - apply validate_each_none, all_valid_are_strings in Hloop as (ss & -> & Hss).
    do 4 right. exists ss. unfold js_length in *. rewrite length_fmap in *.
    split; [lia|done].
Qed.



(** X7: a request whose [texts] is not an array (the key is missing, or its
    value is a string, a number, an object, [null], or the body is not an
    object at all) is answered with the empty-array 400 and nothing else
    happens; unlike a non-string [text] on the analyze route, it is not a
    500. *)
Theorem batch_rejects_non_array env req_body :
  req_body <> JUndefined ->
  req_body <> JNull ->
  (forall props, req_body = JObj props ->
     isArray (own_property props (lit "texts")) = false) ->
  serve (api_batch_analyze req_body) env =
    (Returned (error_reply 400 (lit "Texts array is required and cannot be empty") None),
     no_effects).
Proof.
  intros Hundef Hnull Hno. unfold serve, api_batch_analyze, try_catch.
  destruct req_body as [| | | | | |props]; try done.
  by rewrite (batch_try_not_array props env no_effects (Hno props eq_refl)).
Qed.

Lemma batch_rejects_non_array_witness :
  serve (api_batch_analyze (texts_body (JStr (lit "hello")))) idle_env =
    (Returned (error_reply 400 (lit "Texts array is required and cannot be empty") None),
     no_effects).
Proof.
  apply batch_rejects_non_array.
  - intros H; discriminate H.
  - intros H; discriminate H.
  - intros props [= <-]. reflexivity.
Defined.

(** X8: whatever the request, a call the batch route makes carries between
    1 and 100 texts, each of them trimmed and not empty, to the
    [/batch-analyze] endpoint with the 60 s timeout. *)
Theorem batch_forwards_only_clean_texts env req_body c :
  c ∈ calls (serve (api_batch_analyze req_body) env).2 ->
  exists ts : list jsstring,
    c = batch_call env ts
    /\ 1 <= js_length ts <= 100
    /\ Forall (fun t => t <> [] /\ trim t = t) ts.
Proof.
  unfold serve, api_batch_analyze, try_catch.
  destruct (batch_try_cases req_body env no_effects)
    as [H|[H|[[m H]|[[i H]|(ss & Hsize & Hss & H)]]]]; rewrite H; simpl.
  1-4: by intros ?%elem_of_nil.
  pose proof (batch_forward_calls ss env no_effects) as Hcalls.
  assert (forall c, c ∈ [batch_call env (trim <$> ss)] ->
            exists ts : list jsstring,
              c = batch_call env ts /\ 1 <= js_length ts <= 100
              /\ Forall (fun t => t <> [] /\ trim t = t) ts) as Hgoal.
  { intros c' ->%list_elem_of_singleton. exists (trim <$> ss).
    split; [done|]. split; [unfold js_length in *; by rewrite length_fmap|].
    apply Forall_fmap. eapply Forall_impl; [exact Hss|].
    intros s Hs. simpl. split; [by rewrite <- js_length_zero|apply trim_idempotent]. }
  destruct (batch_forward (JStr <$> ss) env no_effects) as [[r|e] fx]; simpl in *.
  - rewrite Hcalls. apply Hgoal.
  - rewrite batch_catch_effects. simpl. rewrite Hcalls. apply Hgoal.
Qed.

Lemma batch_forwards_only_clean_texts_witness :
  exists ts : list jsstring,
    batch_call idle_env [lit "good"; lit "bad"] = batch_call idle_env ts
    /\ 1 <= js_length ts <= 100
    /\ Forall (fun t => t <> [] /\ trim t = t) ts.
Proof.
  apply (batch_forwards_only_clean_texts idle_env
           (texts_body (JArr [JStr (lit " good "); JStr (lit "bad  ")]))).
  vm_compute. apply list_elem_of_here.
Defined.

(** X9: when a forwarded batch request gets no answer, ECONNREFUSED gives
    the 503 "unavailable" answer and every other transport code, ENOTFOUND
    and timeouts included, the 500 answer. *)
Theorem batch_transport_failure env props (ss : list jsstring) code m :
  own_property props (lit "texts") = JArr (JStr <$> ss) ->
  1 <= js_length ss <= 100 ->
  Forall (fun s => js_length (trim s) <> 0) ss ->
  upstream env (batch_call env (trim <$> ss)) = NoResponse code m ->
  (serve (api_batch_analyze (JObj props)) env).1 =
    Returned
      (if bool_decide (code = lit "ECONNREFUSED") then service_unavailable
       else internal_error "An unexpected error occurred while processing batch request").
Proof.
  intros Htexts Hsize Hss Hup.
  assert (settle (upstream env (batch_call env (trim <$> ss))) =
            Threw (ThrownAxios {| ax_message := m; ax_code := Some code;
                                  ax_response := None |})) as Hrej
    by (by rewrite Hup).
  rewrite (batch_rejected_outcome env props ss _ Htexts Hsize Hss Hrej).
  unfold batch_catch. run_handler.
  repeat case_bool_decide; simplify_eq; done.
Qed.

Lemma batch_transport_failure_witness :
  (serve (api_batch_analyze (texts_body (JArr [JStr (lit "hello")])))
         (constant_upstream
            (NoResponse (lit "ECONNREFUSED") (lit "connect ECONNREFUSED")))).1 =
    Returned service_unavailable.
Proof.
  apply (batch_transport_failure
           (constant_upstream
              (NoResponse (lit "ECONNREFUSED") (lit "connect ECONNREFUSED")))
           _ [lit "hello"] (lit "ECONNREFUSED") (lit "connect ECONNREFUSED")).
  - reflexivity.
  - vm_compute. split; intros H; discriminate H.
  - repeat constructor. closed_neq.
  - reflexivity.
Defined.

(** An upstream that answers 200 with a string is relayed on the batch
    route. *)
Lemma batch_relays_answer_witness :
  serve (api_batch_analyze (texts_body (JArr [JStr (lit " a "); JStr (lit "b")])))
        (constant_upstream (Responded 200 (JStr (lit "ok")))) =
    (Returned {| status := 200; body := DataBody (JStr (lit "ok")) |},
     {| calls := [batch_call (constant_upstream (Responded 200 (JStr (lit "ok"))))
                    [lit "a"; lit "b"]];
        console := [LogBatch 2] |}).
Proof.
  apply (batch_relays_answer (constant_upstream (Responded 200 (JStr (lit "ok")))) _
           [lit " a "; lit "b"] 200 (JStr (lit "ok"))).
  - reflexivity.
  - vm_compute. split; intros H; discriminate H.
  - repeat constructor; closed_neq.
  - reflexivity.
  - lia.
Defined.

(** X11: for an array that passes the size checks there are two outcomes
    and no third: the index error for its first invalid element, with no call,
    or, when every element is a string that is not empty after trimming, the
    one call with the trimmed strings. *)
Theorem batch_sized_array_outcome env props elems :
  own_property props (lit "texts") = JArr elems ->
  1 <= js_length elems <= 100 ->
  (exists i : nat,
     first_invalid elems i
     /\ serve (api_batch_analyze (JObj props)) env =
          (Returned (error_reply 400
             (lit "Text at index " ++ decimal (Z.of_nat i) ++ lit " is invalid or empty")
             None),
           no_effects))
  \/ (exists ss : list jsstring,
        elems = JStr <$> ss
        /\ Forall (fun s => js_length (trim s) <> 0) ss
        /\ calls (serve (api_batch_analyze (JObj props)) env).2 =
             [batch_call env (trim <$> ss)]).
Proof.
  intros Htexts Hsize.
  destruct (validate_each 0 elems) as [k|] eqn:Hloop.
  - left. apply validate_each_some in Hloop as Hfirst.
    destruct Hfirst as (n & -> & Hfirst). exists n. split; [done|].
    unfold serve, api_batch_analyze, try_catch.
    rewrite (batch_try_sized env props elems Htexts no_effects Hsize), Hloop.
    by rewrite Z.add_0_l.
  - right. apply validate_each_none, all_valid_are_strings in Hloop as (ss & -> & Hss).
    exists ss. split; [done|]. split; [done|].
    apply batch_forwards_strings; [done| |done].
    unfold js_length in *. by rewrite length_fmap in Hsize.
Qed.

Lemma batch_sized_array_outcome_witness :
  let elems := [JStr (lit "ok"); JNum (S754_finite false 7 0)] in
  (exists i : nat,
     first_invalid elems i
     /\ serve (api_batch_analyze (texts_body (JArr elems))) idle_env =
          (Returned (error_reply 400
             (lit "Text at index " ++ decimal (Z.of_nat i) ++ lit " is invalid or empty")
             None),
           no_effects))
  \/ (exists ss : list jsstring,
        elems = JStr <$> ss
        /\ Forall (fun s => js_length (trim s) <> 0) ss
        /\ calls (serve (api_batch_analyze (texts_body (JArr elems))) idle_env).2 =
             [batch_call idle_env (trim <$> ss)]).
Proof.
  intros elems. apply (batch_sized_array_outcome idle_env _ elems).
  - reflexivity.
  - vm_compute. split; intros H; discriminate H.
Defined.


(** ** The routes that forward without validating *)

(** X13: [GET /api/metrics] makes exactly one call, a GET of [/metrics] with
    the 5 s timeout, and answers 200 with the upstream body when the upstream
    answers in [200, 300); every failure, an upstream HTTP error included, is
    answered with 503 and the failure's message: the upstream status is never
    passed through. *)
Theorem metrics_outcome now env :
  serve (api_metrics now) env =
    (Returned
       match upstream env (metrics_call env) with
       | Responded st data =>
           if bool_decide (200 <= st < 300)
           then {| status := 200; body := DataBody data |}
           else unavailable_reply (lit "Failed to fetch metrics from AI service")
                  (lit "Request failed with status code " ++ decimal st) now
       | NoResponse _ m =>
           unavailable_reply (lit "Failed to fetch metrics from AI service") m now
       end,
     {| calls := [metrics_call env]; console := [] |}).
Proof.
  unfold api_metrics. run_handler. fold (metrics_call env).
  destruct (upstream env (metrics_call env)) as [st data|code m]; simpl; [|done].
  by case_bool_decide.
Qed.

(** X14: [POST /api/chat] validates nothing: whatever the body, it is sent
    as it is in exactly one POST of [/chat] with the 30 s timeout. The answer
    is 200 with the upstream body when the upstream answers in [200, 300), and
    503 with the failure's message otherwise: an upstream 4xx or 5xx is not
    passed through. *)
Theorem chat_outcome chat_url now req_body env :
  serve (api_chat chat_url now req_body) env =
    (Returned
       match upstream env (chat_call chat_url req_body) with
       | Responded st data =>
           if bool_decide (200 <= st < 300)
           then {| status := 200; body := DataBody data |}
           else unavailable_reply
                  (lit "Failed to communicate with conversational AI service")
                  (lit "Request failed with status code " ++ decimal st) now
       | NoResponse _ m =>
           unavailable_reply
             (lit "Failed to communicate with conversational AI service") m now
       end,
     {| calls := [chat_call chat_url req_body]; console := [] |}).
Proof.
  unfold api_chat. run_handler. fold (chat_call chat_url req_body).
  destruct (upstream env (chat_call chat_url req_body)) as [st data|code m]; simpl;
    [|done].
  by case_bool_decide.
Qed.

(** ** Configuration *)

(** X15: the sentiment service URL is [AI_SERVICE_URL] when that is set and
    not empty, else [FASTAPI_URL] when that is set and not empty, else
    [http://localhost:8000]; a variable set to the empty string counts as
    unset, so the URL is never empty. *)
Theorem sentiment_url_resolution env :
  SENTIMENT_ANALYSIS_URL env <> []
  /\ (forall u, AI_SERVICE_URL env = Some u -> u <> [] ->
        SENTIMENT_ANALYSIS_URL env = u)
  /\ (AI_SERVICE_URL env = None \/ AI_SERVICE_URL env = Some [] ->
      (forall u, FASTAPI_URL env = Some u -> u <> [] ->
         SENTIMENT_ANALYSIS_URL env = u)
      /\ (FASTAPI_URL env = None \/ FASTAPI_URL env = Some [] ->
          SENTIMENT_ANALYSIS_URL env = lit "http://localhost:8000")).
Proof.
  unfold SENTIMENT_ANALYSIS_URL.
  destruct (AI_SERVICE_URL env) as [[|c u]|] eqn:Hai;
    destruct (FASTAPI_URL env) as [[|c' u']|] eqn:Hfast; simpl.
  all: split; [try done; closed_neq|].
  all: split; [by intros ? [= <-] ?|].
  all: intros [Hnone|Hempty]; try discriminate.
  all: split; [by intros ? [= <-] ?|].
  all: by intros [?|?].
Qed.

Lemma sentiment_url_resolution_witness :
  SENTIMENT_ANALYSIS_URL
    {| AI_SERVICE_URL := Some []; FASTAPI_URL := Some (lit "http://ai:8000");
       upstream := fun _ => Responded 200 JNull |} = lit "http://ai:8000".
Proof.
  apply (proj1 (proj2 (proj2
           (sentiment_url_resolution
              {| AI_SERVICE_URL := Some []; FASTAPI_URL := Some (lit "http://ai:8000");
                 upstream := fun _ => Responded 200 JNull |}))
           (or_intror eq_refl)) (lit "http://ai:8000")).
  - reflexivity.
  - closed_neq.
Defined.

(** An upstream 422 on the chat route reaches the client as a 503. *)
Example chat_upstream_422_is_503 :
  (serve (api_chat (CONVERSATIONAL_AI_URL None) (lit "2025-01-01T00:00:00.000Z")
            (JObj [(lit "message", JStr (lit "hi"))]))
         (constant_upstream (Responded 422 (JStr (lit "bad"))))).1 =
    Returned (unavailable_reply
      (lit "Failed to communicate with conversational AI service")
      (lit "Request failed with status code 422") (lit "2025-01-01T00:00:00.000Z")).
Proof. reflexivity. Qed.
